(** * CyberSentinel: feature extraction, packet source and detection loop

    A shallow embedding of

      - [realtime/feature_extractor.py]  (module [FeatureExtractor]),
      - [realtime/packet_sniffer.py]     (module [PacketSniffer]),
      - [model_integration/load_model.py], [Detector.predict_proba]
                                         (module [LoadModel]),
      - [realtime/detection_engine.py]   (module [DetectionEngine]),
      - the entry point's channel construction (module [Main]),

    over a small model of the Python values and builtins the code uses
    (module [Py]) and of [queue.Queue] (module [PyQueue]).

    Everything that lives outside the repository and whose answer the
    code only passes along (the wall clock, [datetime]'s local-time
    conversion, scapy, the sklearn pipeline, the mitigation helpers of
    [realtime/mitigation.py]) is a field of an environment record, so
    every statement holds for every platform, classifier and mitigation
    back end. *)

From Stdlib Require Import ZArith List String Ascii Bool Lia PeanoNat.
From Stdlib Require Import Floats.SpecFloat.
From Stdlib Require Import DecimalString.
From Stdlib Require DecimalPos.
Import ListNotations.

#[local] Set Warnings "-register-all".
Local Open Scope string_scope.
Local Open Scope Z_scope.

(* ================================================================== *)
(** ** Python values and the builtins used by the code                 *)
(* ================================================================== *)

Module Py.

(** An exception: its class name and its message ([str(e)]). *)
Record exn : Type := Exn { exn_class : string; exn_msg : string }.

(** The outcome of evaluating an expression that may raise. *)
Inductive result (A : Type) : Type :=
| Ok (a : A)
| Raise (e : exn).
Arguments Ok {A} a.
Arguments Raise {A} e.

Definition bind {A B} (m : result A) (k : A -> result B) : result B :=
  match m with
  | Ok a => k a
  | Raise e => Raise e
  end.

(** [try: m except Exception: h] *)
Definition try_except {A} (m : result A) (h : exn -> A) : A :=
  match m with
  | Ok a => a
  | Raise e => h e
  end.

Definition is_ok {A} (m : result A) : bool :=
  match m with Ok _ => true | Raise _ => false end.

(** Python values.  Strings are byte strings (ASCII); a dict keeps its
    insertion order, as Python's does, and has [str] keys. *)
Inductive value : Type :=
| PNone
| PBool (b : bool)
| PInt (z : Z)
| PFloat (f : spec_float)
| PStr (s : string)
| PList (l : list value)
| PDict (d : list (string * value)).

Definition dict : Type := list (string * value).

(** binary64 arithmetic *)
Definition prec : Z := 53.
Definition emax : Z := 1024.
Definition float_of_Z (z : Z) : spec_float := binary_normalize prec emax z 0 false.
Definition fadd : spec_float -> spec_float -> spec_float := SFadd prec emax.
Definition fdiv : spec_float -> spec_float -> spec_float := SFdiv prec emax.
(** [a >= b] and [a < b] on floats; both are [False] when a NaN is
    involved. *)
Definition fge (a b : spec_float) : bool := SFleb b a.

(** [bool(v)] *)
Definition truthy (v : value) : bool :=
  match v with
  | PNone => false
  | PBool b => b
  | PInt z => negb (z =? 0)
  | PFloat (S754_zero _) => false
  | PFloat _ => true
  | PStr s => negb (String.eqb s "")
  | PList l => match l with [] => false | _ => true end
  | PDict d => match d with [] => false | _ => true end
  end.

(** [a or b] *)
Definition or_ (a b : value) : value := if truthy a then a else b.

(** [d.get(k)] as an option, and with a default *)
Fixpoint lookup (d : dict) (k : string) : option value :=
  match d with
  | [] => None
  | (k', v) :: d' => if String.eqb k' k then Some v else lookup d' k
  end.

Definition get (d : dict) (k : string) (default : value) : value :=
  match lookup d k with
  | Some v => v
  | None => default
  end.

(** The receiver of a [.get(...)] call: only a dict has the method
    among the values modelled. *)
Definition dict_of (v : value) : result dict :=
  match v with
  | PDict d => Ok d
  | _ => Raise (Exn "AttributeError" "object has no attribute 'get'")
  end.

(** [d[k] = v]: overwrite in place, or append a new key *)
Fixpoint set (d : dict) (k : string) (v : value) : dict :=
  match d with
  | [] => [(k, v)]
  | (k', v') :: d' =>
      if String.eqb k' k then (k', v) :: d' else (k', v') :: set d' k v
  end.

(** *** [str.upper] and [in] on ASCII strings *)

Definition upper_ascii (c : ascii) : ascii :=
  let n := nat_of_ascii c in
  if (Nat.leb 97 n && Nat.leb n 122)%bool then ascii_of_nat (n - 32) else c.

Fixpoint upper (s : string) : string :=
  match s with
  | EmptyString => EmptyString
  | String c s' => String (upper_ascii c) (upper s')
  end.

Fixpoint contains (needle s : string) : bool :=
  (String.prefix needle s ||
   match s with
   | EmptyString => false
   | String _ s' => contains needle s'
   end)%bool.

(** *** [int(x)] *)

(** The characters [int] strips around a literal.  Of the ASCII ones
    these are tab to carriage return and the space, not the separators
    28 to 31 that [str.isspace] counts; above ASCII [int] takes every
    Unicode white space for a space, which in the 8-bit range are
    U+0085 and U+00A0. *)
Definition is_space (c : ascii) : bool :=
  let n := nat_of_ascii c in
  ((Nat.leb 9 n && Nat.leb n 13) || Nat.eqb n 32 ||
   Nat.eqb n 133 || Nat.eqb n 160)%bool.

Definition digit_of (c : ascii) : option Z :=
  let n := nat_of_ascii c in
  if (Nat.leb 48 n && Nat.leb n 57)%bool then Some (Z.of_nat (n - 48)) else None.

Fixpoint lstrip (s : string) : string :=
  match s with
  | String c s' => if is_space c then lstrip s' else s
  | EmptyString => EmptyString
  end.

Fixpoint all_space (s : string) : bool :=
  match s with
  | EmptyString => true
  | String c s' => (is_space c && all_space s')%bool
  end.

(** Digits with single underscores between them, then optional
    trailing white space.  [acc] is the value read so far and
    [after_digit] tells whether the previous character was a digit. *)
Fixpoint parse_digits (s : string) (acc : Z) (after_digit : bool) : option Z :=
  match s with
  | EmptyString => if after_digit then Some acc else None
  | String c s' =>
      match digit_of c with
      | Some d => parse_digits s' (10 * acc + d) true
      | None =>
          if after_digit then
            if Ascii.eqb c "_"%char then
              match s' with
              | String c' _ =>
                  match digit_of c' with
                  | Some _ => parse_digits s' acc false
                  | None => None
                  end
              | EmptyString => None
              end
            else if all_space s then Some acc else None
          else None
      end
  end.

(** The interpreter's limit on the number of decimal digits in a
    conversion between [int] and [str]
    ([sys.int_info.default_max_str_digits]): beyond it both [int(s)]
    and [str(n)] raise [ValueError]. *)
Definition max_str_digits : nat := 4300.

(** The number of digit characters of a string. *)
Fixpoint digit_chars (s : string) : nat :=
  match s with
  | EmptyString => O
  | String c s' =>
      match digit_of c with
      | Some _ => S (digit_chars s')
      | None => digit_chars s'
      end
  end.

(** [int(s)] for a base-10 ASCII literal: surrounding white space, an
    optional sign, digits, no more of them than the limit. *)
Definition parse_int (s : string) : option Z :=
  if Nat.ltb max_str_digits (digit_chars s) then None
  else
    match lstrip s with
    | String "-"%char s' => option_map Z.opp (parse_digits s' 0 false)
    | String "+"%char s' => parse_digits s' 0 false
    | s' => parse_digits s' 0 false
    end.

Definition int (v : value) : result Z :=
  match v with
  | PNone => Raise (Exn "TypeError" "int() argument must be a string, a bytes-like object or a real number, not 'NoneType'")
  | PBool b => Ok (if b then 1 else 0)
  | PInt z => Ok z
  | PFloat S754_nan => Raise (Exn "ValueError" "cannot convert float NaN to integer")
  | PFloat (S754_infinity _) => Raise (Exn "OverflowError" "cannot convert float infinity to integer")
  | PFloat (S754_zero _) => Ok 0
  | PFloat (S754_finite s m e) =>
      let a := if 0 <=? e then Z.shiftl (Zpos m) e else Z.shiftr (Zpos m) (- e) in
      Ok (if s then - a else a)
  | PStr s =>
      match parse_int s with
      | Some z => Ok z
      | None => Raise (Exn "ValueError" "invalid literal for int() with base 10")
      end
  | PList _ => Raise (Exn "TypeError" "int() argument must be a string, a bytes-like object or a real number, not 'list'")
  | PDict _ => Raise (Exn "TypeError" "int() argument must be a string, a bytes-like object or a real number, not 'dict'")
  end.

(** *** [str(x)]

    Written out for the scalar types whose text is immediate; the
    text of a float or of a container is the interpreter's [repr],
    supplied by the caller, which may raise (a container that holds
    an [int] beyond the digit limit, or is nested too deep).  The
    text of an [int] with more digits than the limit is a
    [ValueError]. *)
Definition str (repr : value -> result string) (v : value) : result string :=
  match v with
  | PStr s => Ok s
  | PNone => Ok "None"
  | PBool true => Ok "True"
  | PBool false => Ok "False"
  | PInt z =>
      let text := NilZero.string_of_int (Z.to_int z) in
      if Nat.ltb max_str_digits (digit_chars text)
      then Raise (Exn "ValueError" "Exceeds the limit (4300 digits) for integer string conversion; use sys.set_int_max_str_digits() to increase the limit")
      else Ok text
  | _ => repr v
  end.

(** *** [datetime] *)

Record datetime : Type := Datetime {
  hour : Z;
  minute : Z;
  second : Z;
  microsecond : Z
}.

(** A real number as [datetime.fromtimestamp] reads it. *)
Inductive number : Type :=
| NInt (z : Z)
| NFloat (f : spec_float).

(** [datetime.datetime.fromtimestamp(ts)]: a [TypeError] unless [ts] is
    an [int] (a [bool] is one) or a [float]; on a number, the platform's
    local-time conversion [localtime], which may itself raise
    ([OverflowError], [OSError], [ValueError]) for a value it cannot
    represent. *)
Definition fromtimestamp (localtime : number -> result datetime) (ts : value)
  : result datetime :=
  match ts with
  | PInt z => localtime (NInt z)
  | PBool b => localtime (NInt (if b then 1 else 0))
  | PFloat f => localtime (NFloat f)
  | PNone => Raise (Exn "TypeError" "'NoneType' object cannot be interpreted as an integer")
  | PStr _ => Raise (Exn "TypeError" "'str' object cannot be interpreted as an integer")
  | PList _ => Raise (Exn "TypeError" "'list' object cannot be interpreted as an integer")
  | PDict _ => Raise (Exn "TypeError" "'dict' object cannot be interpreted as an integer")
  end.

End Py.

Notation "x <- m ;; k" := (Py.bind m (fun x => k))
  (at level 61, m at next level, right associativity).

(** The parts of the platform the code reads: the wall clock, the local
    time zone and the interpreter's [repr].  A clock reading is indexed
    by the number of the observation it is taken for. *)
Record platform : Type := Platform {
  time_time : nat -> spec_float;              (* time.time() *)
  time_strftime : nat -> string;              (* time.strftime('%Y-%m-%d %H:%M:%S') *)
  localtime : Py.number -> Py.result Py.datetime;
  repr : Py.value -> Py.result string
}.

(* ================================================================== *)
(** ** realtime/feature_extractor.py                                   *)
(* ================================================================== *)

Module FeatureExtractor.
Import Py.

Section WithPlatform.
Variable P : platform.

(** [dt.hour * 3600 + dt.minute * 60 + dt.second + dt.microsecond / 1e6]:
    an [int] sum plus a [float] quotient.  The fields of a [datetime]
    are small, so the conversions to [float] are exact. *)
Definition normalize_time_of_day (ts : value) : result spec_float :=
  dt <- fromtimestamp (localtime P) ts ;;
  Ok (fadd (float_of_Z (hour dt * 3600 + minute dt * 60 + second dt))
           (fdiv (float_of_Z (microsecond dt)) (float_of_Z 1000000))).

(** The tag of an upper-cased protocol text. *)
Definition protocol_tag (p : string) : string :=
  if contains "TCP" p then "TCP"
  else if contains "UDP" p then "UDP"
  else if contains "ICMP" p then "ICMP"
  else "OTHER".

(** [str(proto_raw)] is not guarded: its exception is the function's. *)
Definition _normalize_protocol (proto_raw : value) : result string :=
  if negb (truthy proto_raw) then Ok "OTHER"
  else
    text <- str (repr P) proto_raw ;;
    let p := upper text in
    Ok (protocol_tag p).

Definition safe_int (x : value) (default : Z) : Z :=
  try_except (int x) (fun _ => default).

(** [extract_features(packet)], for the [n]-th observation.  The
    default of [pkt.get("timestamp", ...)] is the clock reading. *)
Definition extract_features (n : nat) (packet : value) : result dict :=
  pkt <- dict_of packet ;;
  let features : dict := [] in
  let features := set features "src_ip" (get pkt "src_ip" (PStr "0.0.0.0")) in
  let features := set features "dst_ip" (get pkt "dst_ip" (PStr "0.0.0.0")) in
  let features := set features "src_port" (PInt (safe_int (get pkt "src_port" (PInt 0)) 0)) in
  let features := set features "dst_port" (PInt (safe_int (get pkt "dst_port" (PInt 0)) 0)) in
  protocol <- _normalize_protocol (get pkt "protocol" PNone) ;;
  let features := set features "protocol" (PStr protocol) in
  let features := set features "length" (PInt (safe_int (get pkt "length" (PInt 0)) 0)) in
  flags <- (if truthy (get pkt "tcp_flags" PNone)
            then str (repr P) (get pkt "tcp_flags" (PStr ""))
            else Ok "") ;;
  let features := set features "tcp_flags" (PStr flags) in
  tod <- normalize_time_of_day (get pkt "timestamp" (PFloat (time_time P n))) ;;
  Ok (set features "time_of_day" (PFloat tod)).

End WithPlatform.
End FeatureExtractor.

(* ================================================================== *)
(** ** model_integration/load_model.py                                 *)
(* ================================================================== *)

Module LoadModel.
Import Py.

Definition numeric_features : list string :=
  ["src_port"; "dst_port"; "length"; "time_of_day"].
Definition categorical_features : list string := ["protocol"; "tcp_flags"].

(** [Detector.predict_proba]: the one-row frame
    [{k: features.get(k) for k in numeric_features + categorical_features}]
    handed to the fitted sklearn pipeline, whose answer
    [float(probs[0])] (or exception) is the argument [pipeline]. *)
Definition predict_proba (pipeline : dict -> result spec_float) (features : dict)
  : result spec_float :=
  let row := map (fun k => (k, get features k PNone))
                 (numeric_features ++ categorical_features) in
  pipeline row.

End LoadModel.

(* ================================================================== *)
(** ** queue.Queue                                                     *)
(* ================================================================== *)

Module PyQueue.
Import Py.

(** A FIFO queue; the head of [items] is the oldest item. *)
Record t : Type := Make { maxsize : Z; items : list value }.

(** [queue.Queue(maxsize)]; [queue.Queue()] is [Queue 0]. *)
Definition Queue (maxsize : Z) : t := {| maxsize := maxsize; items := [] |}.

Definition qsize (q : t) : Z := Z.of_nat (List.length (items q)).

(** [0 < maxsize <= qsize]: a [maxsize] of zero or less means an
    infinite queue. *)
Definition full (q : t) : bool := ((0 <? maxsize q) && (maxsize q <=? qsize q))%bool.

(** [q.put(x)] (blocking, no timeout): [None] when the caller has to
    wait because the queue is full. *)
Definition put (q : t) (x : value) : option t :=
  if full q then None
  else Some {| maxsize := maxsize q; items := items q ++ [x] |}.

(** [q.get(timeout=...)]: [None] is [queue.Empty] raised once the
    timeout has elapsed on an empty queue. *)
Definition get (q : t) : option (value * t) :=
  match items q with
  | [] => None
  | x :: rest => Some (x, {| maxsize := maxsize q; items := rest |})
  end.

(** A producer that pushes [xs] in order and is not relieved by any
    consumer: the queue it leaves, and the items it is still holding
    because a [put] blocked. *)
Fixpoint put_all (q : t) (xs : list value) : t * list value :=
  match xs with
  | [] => (q, [])
  | x :: xs' =>
      match put q x with
      | Some q' => put_all q' xs'
      | None => (q, xs)
      end
  end.

End PyQueue.

(* ================================================================== *)
(** ** realtime/packet_sniffer.py                                      *)
(* ================================================================== *)

Module PacketSniffer.
Import Py.

(** The values [_make_synthetic_packet] draws from [random]. *)
Record draws : Type := Draws {
  src_host : Z;           (* random.randint(1, 254) *)
  dst_host : Z;           (* random.randint(1, 254) *)
  src_port : Z;           (* random.randint(1024, 65535) *)
  dst_port : Z;           (* random.choice([22, 80, 443, 8080, randint(1024, 65535)]) *)
  protocol : string;      (* random.choice(protocols) *)
  length : Z;             (* random.randint(40, 1500) *)
  tcp_flags : string      (* random.choice(tcp_flags) *)
}.

Definition decimal (z : Z) : string := NilZero.string_of_int (Z.to_int z).

Definition _make_synthetic_packet (r : draws) (now : spec_float) : dict :=
  [ ("src_ip", PStr ("192.0.2." ++ decimal (src_host r)));
    ("dst_ip", PStr ("198.51.100." ++ decimal (dst_host r)));
    ("src_port", PInt (src_port r));
    ("dst_port", PInt (dst_port r));
    ("protocol", PStr (protocol r));
    ("length", PInt (length r));
    ("tcp_flags", PStr (tcp_flags r));
    ("timestamp", PFloat now) ].

(** What the code reads of a scapy packet [p]. *)
Record scapy_packet : Type := ScapyPacket {
  ip_layer : option (value * value);        (* p.getlayer(IP): (src, dst), or None *)
  tcp_layer : option (Z * Z * string);      (* p[TCP]: sport, dport, flags.__str__() *)
  udp_layer : option (Z * Z);               (* p[UDP]: sport, dport *)
  icmp_layer : bool;                        (* p.haslayer(ICMP) *)
  wire_len : Z                              (* len(p) *)
}.

(** The capture library and the random source, as the producer sees
    them. *)
Record capture : Type := Capture {
  scapy_import : result unit;                       (* from scapy.all import ... *)
  rdpcap : value -> result (list scapy_packet);     (* rdpcap(pcap) *)
  sniff : value -> list scapy_packet * option exn;  (* sniff(iface=...): the packets it handed
                                                       to prn, and the exception that ended it,
                                                       if one did *)
  random : nat -> draws
}.

(** How the producer thread's [_run] ends. *)
Inductive ending : Type :=
| Returned                (* _run returned: the sequence is over *)
| Died (e : exn)          (* an exception left _run *)
| Running.                (* the loop was still going when the model's fuel ran out *)

(** The [try] block of [_scapy_to_dict]; [ip.src] on [ip = None] is the
    [AttributeError]. *)
Definition _scapy_to_dict_try (now : spec_float) (p : scapy_packet) : result value :=
  let ip := ip_layer p in
  let '(proto, src_port, dst_port, tcp_flags) :=
    match tcp_layer p with
    | Some (sport, dport, flags) => ("TCP", PInt sport, PInt dport, flags)
    | None =>
        match udp_layer p with
        | Some (sport, dport) => ("UDP", PInt sport, PInt dport, "")
        | None =>
            if icmp_layer p then ("ICMP", PNone, PNone, "")
            else ("OTHER", PNone, PNone, "")
        end
    end in
  addr <- match ip with
          | Some a => Ok a
          | None => Raise (Exn "AttributeError" "'NoneType' object has no attribute 'src'")
          end ;;
  Ok (PDict
        [ ("src_ip", fst addr);
          ("dst_ip", snd addr);
          ("src_port", or_ src_port (PInt 0));
          ("dst_port", or_ dst_port (PInt 0));
          ("protocol", PStr proto);
          ("length", PInt (wire_len p));
          ("tcp_flags", PStr tcp_flags);
          ("timestamp", PFloat now) ]).

(** [_scapy_to_dict(p)]: the dict, or [None] on any exception. *)
Definition _scapy_to_dict (now : spec_float) (p : scapy_packet) : value :=
  try_except (_scapy_to_dict_try now p) (fun _ => PNone).

(** [p.getlayer(IP)] is not [None]. *)
Definition has_ip (p : scapy_packet) : bool :=
  match ip_layer p with Some _ => true | None => false end.

Section WithEnvironment.
Variable P : platform.
Variable C : capture.
(** [stop_event.is_set()] at the producer's [i]-th poll. *)
Variable stop_at : nat -> bool.

(** How many records of a capture the replay loop reaches before it
    sees the stop signal, polling from the [i]-th poll on. *)
Fixpoint records_read (i : nat) (packets : list scapy_packet) : nat :=
  match packets with
  | [] => O
  | _ :: rest => if stop_at i then O else Datatypes.S (records_read (Datatypes.S i) rest)
  end.

(** [while not stop_event.is_set(): out_q.put(_make_synthetic_packet()); sleep] *)
Fixpoint simulate_loop (fuel i : nat) : list value * ending :=
  match fuel with
  | O => ([], Running)
  | S fuel' =>
      if stop_at i then ([], Returned)
      else
        let pkt := _make_synthetic_packet (random C i) (time_time P i) in
        let '(out, e) := simulate_loop fuel' (S i) in
        (PDict pkt :: out, e)
  end.

(** [for p in packets: if stop_event.is_set(): break; d = _scapy_to_dict(p);
    if d: out_q.put(d)] *)
Fixpoint replay (i : nat) (packets : list scapy_packet) : list value :=
  match packets with
  | [] => []
  | p :: rest =>
      if stop_at i then []
      else
        let d := _scapy_to_dict (time_time P i) p in
        (if truthy d then [d] else []) ++ replay (S i) rest
  end.

(** The [prn] callback of live mode, applied to each sniffed packet. *)
Definition _callback (i : nat) (p : scapy_packet) : list value :=
  let d := _scapy_to_dict (time_time P i) p in
  if truthy d then [d] else [].

Fixpoint callbacks (i : nat) (packets : list scapy_packet) : list value :=
  match packets with
  | [] => []
  | p :: rest => _callback i p ++ callbacks (S i) rest
  end.

(** The thread body [_run] of [start_sniff(out_q, mode, iface, pcap,
    stop_event)]: the items it puts on [out_q], in order, and how it
    ends.  [fuel] bounds the iterations of the simulate loop only. *)
Definition start_sniff (fuel : nat) (mode : string) (iface pcap : value)
  : list value * ending :=
  if String.eqb mode "simulate" then simulate_loop fuel 0
  else
    match scapy_import C with
    | Raise e =>
        ([PDict [("__error__", PStr ("scapy not available: " ++ exn_msg e))]], Returned)
    | Ok _ =>
        if String.eqb mode "pcap" then
          if negb (truthy pcap) then
            ([PDict [("__error__", PStr "pcap mode selected but no pcap path provided")]],
             Returned)
          else
            match rdpcap C pcap with
            | Raise e =>
                ([PDict [("__error__", PStr ("failed to read pcap: " ++ exn_msg e))]],
                 Returned)
            | Ok packets => (replay 0 packets, Returned)
            end
        else if String.eqb mode "live" then
          if negb (truthy iface) then
            ([PDict [("__error__", PStr "live mode requires iface")]], Returned)
          else
            let '(packets, failure) := sniff C iface in
            (callbacks 0 packets,
             match failure with
             | None => Returned
             | Some e => Died e
             end)
        else ([], Returned)
    end.

End WithEnvironment.
End PacketSniffer.

(* ================================================================== *)
(** ** realtime/detection_engine.py                                    *)
(* ================================================================== *)

Module DetectionEngine.
Import Py.

(** What the consumer thread does to the world outside it, in order. *)
Inductive event : Type :=
| Predict (features : dict)                   (* self.detector.predict_proba(features) *)
| AddToBlocklist (ip : value)                 (* add_to_blocklist(ip) *)
| ApplyBlock (ip : value) (mode : string)     (* apply_block(ip, mode=...) *)
| LogAlert (stamp : string) (alert : dict).   (* one line appended to logs/alerts.log *)

(** A computation that performs calls and may raise: the calls made
    (also those made before an exception) and the outcome. *)
Definition io (A : Type) : Type := list event * result A.

Definition ret {A} (a : A) : io A := ([], Ok a).

Definition bind_io {A B} (m : io A) (k : A -> io B) : io B :=
  match m with
  | (t, Ok a) => let '(t', r) := k a in ((t ++ t')%list, r)
  | (t, Raise e) => (t, Raise e)
  end.

(** A call to the outside, recorded, with the answer it got. *)
Definition call {A} (ev : event) (answer : result A) : io A := ([ev], answer).

(** A computation that touches nothing outside. *)
Definition pure_ {A} (r : result A) : io A := ([], r).

Notation "x <~ m ;; k" := (bind_io m (fun x => k))
  (at level 61, m at next level, right associativity).

(** The detector's fitted pipeline and [realtime/mitigation.py], which
    the engine calls and whose code is not part of this development:
    each answer is a value or an exception. *)
Record services : Type := Services {
  pipeline : dict -> result spec_float;
  add_to_blocklist : value -> result unit;
  apply_block : value -> string -> result value
}.

(** The fields [__init__] sets from its arguments. *)
Record engine : Type := Engine {
  threshold : spec_float;
  mitigation_mode : string
}.

Section WithEnvironment.
Variable P : platform.
Variable S : services.
Variable self : engine.

(** [fh.write(f"{time.strftime(...)} | {alert}\n")] *)
Definition _log_alert (n : nat) (alert : dict) : io unit :=
  call (LogAlert (time_strftime P n) alert) (Ok tt).

(** The address [_handle_mitigation] acts on:
    [features.get("src_ip") or features.get("dst_ip")]. *)
Definition mitigation_target (features : dict) : value :=
  or_ (get features "src_ip" PNone) (get features "dst_ip" PNone).

Definition _handle_mitigation (features : dict) (prob : spec_float) : io value :=
  let ip := mitigation_target features in
  _ <~ call (AddToBlocklist ip) (add_to_blocklist S ip) ;;
  cmd <~ call (ApplyBlock ip (mitigation_mode self))
              (apply_block S ip (mitigation_mode self)) ;;
  ret cmd.

(** [isinstance(pkt, dict) and pkt.get("__error__")], as a truth value *)
Definition is_error (pkt : value) : bool :=
  match pkt with
  | PDict d => truthy (get d "__error__" PNone)
  | _ => false
  end.

Definition error_msg (pkt : value) : value :=
  match pkt with
  | PDict d => get d "__error__" PNone
  | _ => PNone
  end.

(** One iteration of the [while] loop of [_run], from the point where
    [self.in_q.get] has returned [pkt]; [n] numbers the observation. *)
Definition handle (n : nat) (pkt : value) : io unit :=
  match pkt with
  | PNone => ret tt
  | _ =>
      if is_error pkt then
        _log_alert n [("type", PStr "sniffer_error"); ("msg", error_msg pkt)]
      else
        features <~ pure_ (FeatureExtractor.extract_features P n pkt) ;;
        prob <~ call (Predict features) (LoadModel.predict_proba (pipeline S) features) ;;
        if fge prob (threshold self) then
          let alert : dict :=
            [ ("src_ip", get features "src_ip" PNone);
              ("dst_ip", get features "dst_ip" PNone);
              ("probability", PFloat prob);
              ("features", PDict features) ] in
          cmd <~ _handle_mitigation features prob ;;
          let alert := set alert "mitigation_cmd" cmd in
          _log_alert n alert
        else ret tt
  end.

(** Where the consumer thread is. *)
Inductive control : Type :=
| NotStarted                  (* start() has not been called *)
| LoopHead                    (* about to test [not self._stop_event.is_set()] *)
| InGet                       (* inside [self.in_q.get(timeout=1.0)] *)
| Exited                      (* the loop condition failed: _run returned *)
| Crashed (e : exn).          (* an exception left _run: the thread is dead *)

Record state : Type := State {
  in_q : PyQueue.t;
  stop_event : bool;            (* self._stop_event *)
  pc : control;
  trace : list event;           (* everything done so far, oldest first *)
  received : nat;               (* items [get] has returned *)
  timeouts : nat                (* receive timeouts (of 1.0 s each) sat out *)
}.

Definition init (q : PyQueue.t) : state :=
  {| in_q := q; stop_event := false; pc := NotStarted; trace := [];
     received := 0; timeouts := 0 |}.

(** One move of the consumer thread. *)
Definition step (st : state) : state :=
  match pc st with
  | LoopHead =>
      if stop_event st
      then {| in_q := in_q st; stop_event := stop_event st; pc := Exited;
              trace := trace st; received := received st; timeouts := timeouts st |}
      else {| in_q := in_q st; stop_event := stop_event st; pc := InGet;
              trace := trace st; received := received st; timeouts := timeouts st |}
  | InGet =>
      match PyQueue.get (in_q st) with
      | None =>
          (* queue.Empty after the timeout: continue *)
          {| in_q := in_q st; stop_event := stop_event st; pc := LoopHead;
             trace := trace st; received := received st;
             timeouts := Datatypes.S (timeouts st) |}
      | Some (pkt, q') =>
          let '(evs, r) := handle (received st) pkt in
          {| in_q := q'; stop_event := stop_event st;
             pc := match r with Ok _ => LoopHead | Raise e => Crashed e end;
             trace := (trace st ++ evs)%list;
             received := Datatypes.S (received st); timeouts := timeouts st |}
      end
  | NotStarted | Exited | Crashed _ => st
  end.

(** [engine.start()]: a new thread enters [_run].  The model follows one
    consumer thread, so [start] on a live one is left out. *)
Definition start (st : state) : state :=
  match pc st with
  | NotStarted | Exited | Crashed _ =>
      {| in_q := in_q st; stop_event := stop_event st; pc := LoopHead;
         trace := trace st; received := received st; timeouts := timeouts st |}
  | LoopHead | InGet => st
  end.

(** [engine.stop()]: [self._stop_event.set()] *)
Definition stop (st : state) : state :=
  {| in_q := in_q st; stop_event := true; pc := pc st;
     trace := trace st; received := received st; timeouts := timeouts st |}.

(** A producer's [out_q.put(x)]; on a full queue the producer waits and
    the state is unchanged. *)
Definition put (x : value) (st : state) : state :=
  match PyQueue.put (in_q st) x with
  | Some q' =>
      {| in_q := q'; stop_event := stop_event st; pc := pc st;
         trace := trace st; received := received st; timeouts := timeouts st |}
  | None => st
  end.

(** What can happen to an engine: its own thread moves, or one of its
    methods or its queue is used from another thread. *)
Inductive action : Type :=
| AStep
| AStart
| AStop
| APut (x : value).

Definition act (a : action) (st : state) : state :=
  match a with
  | AStep => step st
  | AStart => start st
  | AStop => stop st
  | APut x => put x st
  end.

Fixpoint exec (acts : list action) (st : state) : state :=
  match acts with
  | [] => st
  | a :: rest => exec rest (act a st)
  end.

(** [n] moves of the consumer with nothing else happening. *)
Fixpoint run (n : nat) (st : state) : state :=
  match n with
  | O => st
  | Datatypes.S n' => run n' (step st)
  end.

End WithEnvironment.

(** Views of a trace. *)
Definition is_log (ev : event) : bool :=
  match ev with LogAlert _ _ => true | _ => false end.
Definition is_predict (ev : event) : bool :=
  match ev with Predict _ => true | _ => false end.
Definition is_mitigation (ev : event) : bool :=
  match ev with AddToBlocklist _ | ApplyBlock _ _ => true | _ => false end.

(** The lines of [logs/alerts.log] a trace wrote, as their payloads. *)
Definition alerts_log (t : list event) : list dict :=
  flat_map (fun ev => match ev with LogAlert _ a => [a] | _ => [] end) t.

Definition is_running (c : control) : bool :=
  match c with LoopHead | InGet => true | _ => false end.

(** With the stop signal set: the receives the thread can still
    complete, and the moves it can still make. *)
Definition pending_receives (c : control) : nat :=
  match c with InGet => 1 | _ => 0 end.
Definition moves_left (c : control) : nat :=
  match c with LoopHead => 1 | InGet => 2 | _ => 0 end.

Definition is_step (a : action) : bool :=
  match a with AStep => true | _ => false end.
Definition is_start (a : action) : bool :=
  match a with AStart => true | _ => false end.
Definition count_steps (acts : list action) : nat :=
  List.length (filter is_step acts).

End DetectionEngine.

(* ================================================================== *)
(** ** The entry point ([main])                                        *)
(* ================================================================== *)

Module Main.

(** [pkt_q = queue.Queue()] *)
Definition pkt_q : PyQueue.t := PyQueue.Queue 0.

(** [parser.add_argument("--threshold", type=float, default=0.75)]:
    0.75 is 3 * 2^-2. *)
Definition default_threshold : spec_float := S754_finite false 6755399441055744 (-53).

End Main.

(* ================================================================== *)
(** ** Concrete environments for the examples                          *)
(* ================================================================== *)

Module Demo.
Import Py.

(** Round [n / d] to the nearest integer, ties to even ([0 < d]). *)
Definition round_half_even (n d : Z) : Z :=
  let q := n / d in
  let r := n mod d in
  if 2 * r <? d then q
  else if d <? 2 * r then q + 1
  else if Z.even q then q else q + 1.

(** The microseconds since the epoch a number stands for. *)
Definition micros (x : number) : result Z :=
  match x with
  | NInt z => Ok (z * 1000000)
  | NFloat S754_nan => Raise (Exn "ValueError" "cannot convert float NaN to integer")
  | NFloat (S754_infinity _) => Raise (Exn "OverflowError" "cannot convert float infinity to integer")
  | NFloat (S754_zero _) => Ok 0
  | NFloat (S754_finite s m e) =>
      let a := if 0 <=? e then Z.shiftl (Zpos m) e * 1000000
               else round_half_even (Zpos m * 1000000) (Z.shiftl 1 (- e)) in
      Ok (if s then - a else a)
  end.

(** A platform whose local time zone is UTC, between the years 1 and
    9999. *)
Definition utc_localtime (x : number) : result datetime :=
  us <- micros x ;;
  let sec := us / 1000000 in
  if ((-62135596800 <=? sec) && (sec <=? 253402300799))%bool then
    let tod := sec mod 86400 in
    Ok {| hour := tod / 3600; minute := (tod mod 3600) / 60; second := tod mod 60;
          microsecond := us mod 1000000 |}
  else Raise (Exn "OverflowError" "timestamp out of range for platform time_t").

(** A clock started at 2023-11-14 22:13:20 UTC that advances one
    second per observation; [repr] is only reached for floats and
    containers and is left opaque. *)
Definition utc : platform :=
  {| time_time := fun n => float_of_Z (1700000000 + Z.of_nat n);
     time_strftime := fun _ => "2023-11-14 22:13:20";
     localtime := utc_localtime;
     repr := fun _ => Ok "<repr>" |}.

(** The classifier stub of the spec's scenario A: 0.9 for destination
    port 4444 and 0.1 otherwise. *)
Definition p09 : spec_float := fdiv (float_of_Z 9) (float_of_Z 10).
Definition p01 : spec_float := fdiv (float_of_Z 1) (float_of_Z 10).

Definition port_4444_pipeline (row : dict) : result spec_float :=
  match lookup row "dst_port" with
  | Some (PInt 4444) => Ok p09
  | _ => Ok p01
  end.

(** The classifier stub of scenario C: it always raises. *)
Definition failing_pipeline (row : dict) : result spec_float :=
  Raise (Exn "RuntimeError" "classifier unavailable").

(** A mitigation back end that accepts every call and answers with a
    description of the command. *)
Definition describe (ip : value) (mode : string) : value :=
  PStr (mode ++ ": block " ++
        try_except (str (fun _ => Ok "<repr>") ip) (fun _ => "<repr>")).

Definition scenario_A : DetectionEngine.services :=
  {| DetectionEngine.pipeline := port_4444_pipeline;
     DetectionEngine.add_to_blocklist := fun _ => Ok tt;
     DetectionEngine.apply_block := fun ip mode => Ok (describe ip mode) |}.

Definition scenario_C : DetectionEngine.services :=
  {| DetectionEngine.pipeline := failing_pipeline;
     DetectionEngine.add_to_blocklist := fun _ => Ok tt;
     DetectionEngine.apply_block := fun ip mode => Ok (describe ip mode) |}.

Definition engine_075 : DetectionEngine.engine :=
  {| DetectionEngine.threshold := Main.default_threshold;
     DetectionEngine.mitigation_mode := "dry-run" |}.

(** Two observations: one to port 4444, one to port 80. *)
Definition pkt_4444 : value :=
  PDict [ ("src_ip", PStr "192.0.2.7"); ("dst_ip", PStr "198.51.100.9");
          ("src_port", PInt 52344); ("dst_port", PInt 4444);
          ("protocol", PStr "TCP"); ("length", PInt 100);
          ("tcp_flags", PStr "S"); ("timestamp", PInt 1700000000) ].

Definition pkt_80 : value :=
  PDict [ ("src_ip", PStr "192.0.2.7"); ("dst_ip", PStr "198.51.100.9");
          ("src_port", PInt 52344); ("dst_port", PInt 80);
          ("protocol", PStr "tcp"); ("length", PInt 100);
          ("tcp_flags", PStr "S"); ("timestamp", PInt 1700000000) ].

(** An observation whose addresses are present but empty. *)
Definition pkt_no_address : value :=
  PDict [ ("src_ip", PStr ""); ("dst_ip", PStr "");
          ("dst_port", PInt 4444); ("timestamp", PInt 1700000000) ].

(** An observation whose timestamp is not a number. *)
Definition pkt_bad_timestamp : value :=
  PDict [ ("src_ip", PStr "192.0.2.7"); ("dst_port", PStr "80");
          ("timestamp", PStr "abc") ].

(** An acquisition-error item, as the sniffer builds it. *)
Definition pkt_error : value :=
  PDict [ ("__error__", PStr "failed to read pcap: No such file or directory") ].

(** Captures: a path that cannot be read, and a file holding an ARP
    frame (no IP layer) followed by a TCP segment. *)
Definition arp_frame : PacketSniffer.scapy_packet :=
  {| PacketSniffer.ip_layer := None; PacketSniffer.tcp_layer := None;
     PacketSniffer.udp_layer := None; PacketSniffer.icmp_layer := false;
     PacketSniffer.wire_len := 42 |}.

Definition tcp_segment : PacketSniffer.scapy_packet :=
  {| PacketSniffer.ip_layer := Some (PStr "192.0.2.7", PStr "198.51.100.9");
     PacketSniffer.tcp_layer := Some (52344, 4444, "S");
     PacketSniffer.udp_layer := None; PacketSniffer.icmp_layer := false;
     PacketSniffer.wire_len := 60 |}.

Definition no_draws : nat -> PacketSniffer.draws :=
  fun _ => {| PacketSniffer.src_host := 1; PacketSniffer.dst_host := 1;
              PacketSniffer.src_port := 1024; PacketSniffer.dst_port := 80;
              PacketSniffer.protocol := "TCP"; PacketSniffer.length := 40;
              PacketSniffer.tcp_flags := "" |}.

Definition missing_file : PacketSniffer.capture :=
  {| PacketSniffer.scapy_import := Ok tt;
     PacketSniffer.rdpcap := fun _ => Raise (Exn "FileNotFoundError" "No such file or directory");
     PacketSniffer.sniff := fun _ => ([], Some (Exn "PermissionError" "Operation not permitted"));
     PacketSniffer.random := no_draws |}.

Definition arp_then_tcp : PacketSniffer.capture :=
  {| PacketSniffer.scapy_import := Ok tt;
     PacketSniffer.rdpcap := fun _ => Ok [arp_frame; tcp_segment];
     PacketSniffer.sniff := fun _ => ([], Some (Exn "PermissionError" "Operation not permitted"));
     PacketSniffer.random := no_draws |}.

Definition never : nat -> bool := fun _ => false.

(** A consumer waiting in [get] on the queue [items]. *)
Definition waiting (items : list value) (stopped : bool) : DetectionEngine.state :=
  {| DetectionEngine.in_q := {| PyQueue.maxsize := 0; PyQueue.items := items |};
     DetectionEngine.stop_event := stopped;
     DetectionEngine.pc := DetectionEngine.InGet;
     DetectionEngine.trace := [];
     DetectionEngine.received := 0;
     DetectionEngine.timeouts := 0 |}.

End Demo.

(* ================================================================== *)
(** ** Views of dicts, traces and whole runs                           *)
(* ================================================================== *)

Module Pipeline.
Import Py.
Import DetectionEngine.

(** The keys of a dict, in insertion order. *)
Definition keys (d : dict) : list string := map fst d.

(** The keys of a packet dict as the sniffer builds it, and of a
    feature record as [extract_features] builds it. *)
Definition packet_keys : list string :=
  ["src_ip"; "dst_ip"; "src_port"; "dst_port"; "protocol"; "length";
   "tcp_flags"; "timestamp"].
Definition feature_keys : list string :=
  ["src_ip"; "dst_ip"; "src_port"; "dst_port"; "protocol"; "length";
   "tcp_flags"; "time_of_day"].

(** [needle] occurs in [s]. *)
Definition occurs (needle s : string) : Prop :=
  exists pre post : string, s = pre ++ needle ++ post.

(** The [while] loop of [_run] on a queue that holds [xs], is never
    refilled and never stopped, as one function: the calls made, in
    order, and the exception that ended the thread, if one did.  [n]
    numbers the first item. *)
Fixpoint drain (P : platform) (S : services) (self : engine)
         (n : nat) (xs : list value) : list event * option exn :=
  match xs with
  | [] => ([], None)
  | x :: rest =>
      match handle P S self n x with
      | (evs, Ok _) =>
          let '(evs', r) := drain P S self (Datatypes.S n) rest in
          ((evs ++ evs')%list, r)
      | (evs, Raise e) => (evs, Some e)
      end
  end.

(** Kinds of events, and how many of a kind a trace holds. *)
Definition is_add (ev : event) : bool :=
  match ev with AddToBlocklist _ => true | _ => false end.
Definition is_apply (ev : event) : bool :=
  match ev with ApplyBlock _ _ => true | _ => false end.
(** A log line written for a detection (it has no ["type"] entry), as
    opposed to a [sniffer_error] line. *)
Definition is_detection (ev : event) : bool :=
  match ev with
  | LogAlert _ a => match lookup a "type" with None => true | Some _ => false end
  | _ => false
  end.
Definition count (f : event -> bool) (t : list event) : nat :=
  List.length (filter f t).

(** The mode of every [apply_block] call of a trace is [mode]. *)
Definition applies_in_mode (mode : string) (t : list event) : Prop :=
  forall ev : event,
    In ev t ->
    match ev with ApplyBlock _ m => m = mode | _ => True end.

Definition is_put (a : action) : bool :=
  match a with APut _ => true | _ => false end.

(** The books of a trace [t] balance against [n] items received: no
    detection line without an [apply_block] call, no [apply_block]
    without an [add_to_blocklist], no [add_to_blocklist] without a
    score, at most one score and at most one log line per item, and
    every [apply_block] in mode [mode]. *)
Definition accounted (mode : string) (t : list event) (n : nat) : Prop :=
  (count is_detection t <= count is_apply t)%nat /\
  (count is_apply t <= count is_add t)%nat /\
  (count is_add t <= count is_predict t)%nat /\
  (count is_predict t <= n)%nat /\
  (count is_log t <= n)%nat /\
  applies_in_mode mode t.

(** A packet item as a producer builds it: a dict with the eight
    packet keys, in order, whose timestamp is a reading of the
    producer's clock and whose protocol and flags are strings. *)
Definition is_packet (clock : nat -> spec_float) (item : value) : Prop :=
  exists (d : dict) (i : nat),
    item = PDict d /\ keys d = packet_keys /\
    lookup d "timestamp" = Some (PFloat (clock i)) /\
    (exists proto : string, lookup d "protocol" = Some (PStr proto)) /\
    (exists flags : string, lookup d "tcp_flags" = Some (PStr flags)).

(** The decimal digits of a [Decimal.uint], read left to right onto
    [acc]. *)
Fixpoint digits_value (d : Decimal.uint) (acc : Z) : Z :=
  match d with
  | Decimal.Nil => acc
  | Decimal.D0 l => digits_value l (10 * acc)
  | Decimal.D1 l => digits_value l (10 * acc + 1)
  | Decimal.D2 l => digits_value l (10 * acc + 2)
  | Decimal.D3 l => digits_value l (10 * acc + 3)
  | Decimal.D4 l => digits_value l (10 * acc + 4)
  | Decimal.D5 l => digits_value l (10 * acc + 5)
  | Decimal.D6 l => digits_value l (10 * acc + 6)
  | Decimal.D7 l => digits_value l (10 * acc + 7)
  | Decimal.D8 l => digits_value l (10 * acc + 8)
  | Decimal.D9 l => digits_value l (10 * acc + 9)
  end.

End Pipeline.

(** Further environments for the examples. *)
Module Scenarios.
Import Py.

(** A mitigation back end that records the address but cannot reach
    the enforcement point. *)
Definition unreachable_backend : DetectionEngine.services :=
  {| DetectionEngine.pipeline := Demo.port_4444_pipeline;
     DetectionEngine.add_to_blocklist := fun _ => Ok tt;
     DetectionEngine.apply_block :=
       fun _ _ => Raise (Exn "MitigationError" "backend unreachable") |}.

(** A blocklist store that cannot be written. *)
Definition readonly_blocklist : DetectionEngine.services :=
  {| DetectionEngine.pipeline := Demo.port_4444_pipeline;
     DetectionEngine.add_to_blocklist :=
       fun _ => Raise (Exn "PermissionError" "blocklist.txt is read-only");
     DetectionEngine.apply_block := fun ip mode => Ok (Demo.describe ip mode) |}.

(** scapy is not installed. *)
Definition no_scapy : PacketSniffer.capture :=
  {| PacketSniffer.scapy_import := Raise (Exn "ModuleNotFoundError" "No module named 'scapy'");
     PacketSniffer.rdpcap := fun _ => Ok [];
     PacketSniffer.sniff := fun _ => ([], None);
     PacketSniffer.random := Demo.no_draws |}.

(** The stop signal is seen at the producer's third poll. *)
Definition stop_at_2 : nat -> bool := fun i => Nat.leb 2 i.

(** A UDP datagram and an ICMP echo. *)
Definition udp_datagram : PacketSniffer.scapy_packet :=
  {| PacketSniffer.ip_layer := Some (PStr "192.0.2.8", PStr "198.51.100.9");
     PacketSniffer.tcp_layer := None;
     PacketSniffer.udp_layer := Some (5353, 53);
     PacketSniffer.icmp_layer := false;
     PacketSniffer.wire_len := 72 |}.

Definition three_records : PacketSniffer.capture :=
  {| PacketSniffer.scapy_import := Ok tt;
     PacketSniffer.rdpcap := fun _ => Ok [Demo.tcp_segment; Demo.arp_frame; udp_datagram];
     PacketSniffer.sniff :=
       fun _ => ([Demo.tcp_segment; Demo.arp_frame; udp_datagram],
                 Some (Exn "OSError" "Network is down"));
     PacketSniffer.random := Demo.no_draws |}.

(** An engine whose threshold is not a number. *)
Definition engine_nan : DetectionEngine.engine :=
  {| DetectionEngine.threshold := S754_nan;
     DetectionEngine.mitigation_mode := "dry-run" |}.

(** An engine whose threshold is the score of scenario A's stub. *)
Definition engine_09 : DetectionEngine.engine :=
  {| DetectionEngine.threshold := Demo.p09;
     DetectionEngine.mitigation_mode := "apply" |}.

(** A consumer at the head of its loop on the queue [items]. *)
Definition at_head (items : list value) : DetectionEngine.state :=
  {| DetectionEngine.in_q := {| PyQueue.maxsize := 0; PyQueue.items := items |};
     DetectionEngine.stop_event := false;
     DetectionEngine.pc := DetectionEngine.LoopHead;
     DetectionEngine.trace := [];
     DetectionEngine.received := 0;
     DetectionEngine.timeouts := 0 |}.

End Scenarios.

(* ================================================================== *)
(** ** Properties                                                      *)
(* ================================================================== *)

Import Py.

(** *** Floats and traces *)



Lemma alerts_log_app (t1 t2 : list DetectionEngine.event) :
  DetectionEngine.alerts_log (t1 ++ t2) =
  (DetectionEngine.alerts_log t1 ++ DetectionEngine.alerts_log t2)%list.
Proof. unfold DetectionEngine.alerts_log. apply flat_map_app. Qed.

Section EngineFacts.
Import DetectionEngine.
Variable P : platform.
Variable S : services.
Variable self : engine.

(** A completed receive runs the loop body on the item received. *)
Lemma step_receive (st : state) (pkt : value) (q' : PyQueue.t) :
  pc st = InGet ->
  PyQueue.get (in_q st) = Some (pkt, q') ->
  trace (step P S self st) = (trace st ++ fst (handle P S self (received st) pkt))%list /\
  pc (step P S self st) =
    match snd (handle P S self (received st) pkt) with
    | Ok _ => LoopHead
    | Raise e => Crashed e
    end /\
  in_q (step P S self st) = q' /\
  stop_event (step P S self st) = stop_event st.
Proof.
  intros Hpc Hget. unfold step. rewrite Hpc, Hget.
  destruct (handle P S self (received st) pkt) as [evs r]. simpl. auto.
Qed.

(** The loop body on an acquisition-error item. *)
Lemma handle_error (n : nat) (pkt : value) :
  is_error pkt = true ->
  handle P S self n pkt =
    ([LogAlert (time_strftime P n) [("type", PStr "sniffer_error"); ("msg", error_msg pkt)]],
     Ok tt).
Proof.
  intros H. destruct pkt; try discriminate H.
  unfold handle. rewrite H. reflexivity.
Qed.

(** The loop body on an item that is neither [None] nor an error
    signal, up to the comparison with the threshold. *)
Lemma handle_scored (n : nat) (pkt : value) (features : dict) (p : spec_float) :
  is_error pkt = false ->
  FeatureExtractor.extract_features P n pkt = Ok features ->
  LoadModel.predict_proba (pipeline S) features = Ok p ->
  handle P S self n pkt =
    bind_io (call (Predict features) (Ok p))
      (fun prob =>
         if fge prob (threshold self) then
           bind_io (_handle_mitigation S self features prob)
             (fun cmd =>
                _log_alert P n
                  (set [ ("src_ip", get features "src_ip" PNone);
                         ("dst_ip", get features "dst_ip" PNone);
                         ("probability", PFloat prob);
                         ("features", PDict features) ] "mitigation_cmd" cmd))
         else ret tt).
Proof.
  intros Herr Hf Hp.
  destruct pkt; try discriminate Hf.
  unfold handle. rewrite Herr, Hf. unfold pure_, bind_io at 1.
  rewrite Hp.
  match goal with |- (let '(t, r) := ?X in _) = _ => destruct X as [t r] end.
  reflexivity.
Qed.

End EngineFacts.

Import DetectionEngine.

(** *** The consumer loop, item by item *)






(** A dead or finished thread makes no further move. *)
Lemma run_not_running (P : platform) (S : services) (self : engine)
      (n : nat) (st : state) :
  is_running (pc st) = false -> run P S self n st = st.
Proof.
  intros H. induction n as [| n IH]; [reflexivity |].
  simpl. unfold step at 1.
  destruct (pc st) eqn:E; try discriminate H; exact IH.
Qed.

(** C3 (as the code has it): when the classifier call raises, the
    exception leaves [_run] and the consumer thread is dead.  Nothing
    is appended to the alert log, no mitigation call is made for the
    observation, and no later observation is processed. *)
Theorem C3_classifier_exception_ends_loop :
  forall (P : platform) (S : services) (self : engine)
         (st : state) (pkt : value) (q' : PyQueue.t)
         (features : dict) (e : exn),
    pc st = InGet ->
    PyQueue.get (in_q st) = Some (pkt, q') ->
    is_error pkt = false ->
    FeatureExtractor.extract_features P (received st) pkt = Ok features ->
    LoadModel.predict_proba (pipeline S) features = Raise e ->
    let st' := step P S self st in
    pc st' = Crashed e /\
    trace st' = (trace st ++ [Predict features])%list /\
    alerts_log (trace st') = alerts_log (trace st) /\
    filter is_mitigation (trace st') = filter is_mitigation (trace st) /\
    forall n : nat, run P S self n st' = st'.
Proof.
  intros P S self st pkt q' features e Hpc Hget Herr Hf Hp st'.
  destruct (step_receive P S self st pkt q' Hpc Hget) as (Ht & Hc & _ & _).
  assert (Hh : handle P S self (received st) pkt = ([Predict features], Raise e)).
  { destruct pkt; try discriminate Hf.
    unfold handle. rewrite Herr, Hf. unfold pure_, bind_io at 1.
    rewrite Hp. reflexivity. }
  rewrite Hh in Ht, Hc. simpl in Ht, Hc. subst st'.
  rewrite Ht, alerts_log_app, filter_app. simpl. rewrite !app_nil_r.
  repeat split; try reflexivity; try assumption.
  intros n. apply run_not_running. rewrite Hc. reflexivity.
Qed.

Lemma C3_classifier_exception_ends_loop_witness :
  let st' := step Demo.utc Demo.scenario_C Demo.engine_075
                  (Demo.waiting [Demo.pkt_80; Demo.pkt_4444] false) in
  pc st' = Crashed (Exn "RuntimeError" "classifier unavailable") /\
  alerts_log (trace st') = [] /\
  forall n : nat, run Demo.utc Demo.scenario_C Demo.engine_075 n st' = st'.
Proof.
  destruct (C3_classifier_exception_ends_loop Demo.utc Demo.scenario_C Demo.engine_075
              (Demo.waiting [Demo.pkt_80; Demo.pkt_4444] false) Demo.pkt_80
              {| PyQueue.maxsize := 0; PyQueue.items := [Demo.pkt_4444] |}
              _ (Exn "RuntimeError" "classifier unavailable")
              eq_refl eq_refl eq_refl eq_refl eq_refl) as (Hc & _ & Hlog & _ & Hrun).
  split; [exact Hc | split; [exact Hlog | exact Hrun]].
Defined.

(** With a classifier that always raises, the first observation kills
    the consumer: no diagnostic entry is written and the second
    observation stays in the queue for good. *)
Lemma C3_counterexample :
  let st' := run Demo.utc Demo.scenario_C Demo.engine_075 10
                 (start (init {| PyQueue.maxsize := 0;
                                 PyQueue.items := [Demo.pkt_80; Demo.pkt_4444] |})) in
  pc st' = Crashed (Exn "RuntimeError" "classifier unavailable") /\
  alerts_log (trace st') = [] /\
  received st' = 1%nat /\
  PyQueue.items (in_q st') = [Demo.pkt_4444].
Proof. vm_compute. repeat split; reflexivity. Qed.

(** *** Mitigation target *)

(** [_handle_mitigation] makes its two calls whatever the target is. *)
Lemma handle_mitigation_calls (S : services) (self : engine)
      (features : dict) (prob : spec_float) :
  _handle_mitigation S self features prob =
    match add_to_blocklist S (mitigation_target features) with
    | Raise e => ([AddToBlocklist (mitigation_target features)], Raise e)
    | Ok _ =>
        ([AddToBlocklist (mitigation_target features);
          ApplyBlock (mitigation_target features) (mitigation_mode self)],
         apply_block S (mitigation_target features) (mitigation_mode self))
    end.
Proof.
  unfold _handle_mitigation, call, bind_io, ret.
  destruct (add_to_blocklist S (mitigation_target features)); [| reflexivity].
  destruct (apply_block S (mitigation_target features) (mitigation_mode self));
    reflexivity.
Qed.

(** C5 (as the code has it): when the probability meets the threshold,
    the target is the features' source address if that value is truthy
    and the destination address otherwise.  [add_to_blocklist] is
    called with that target whatever it is, also when neither address
    is truthy; [apply_block] is called with the same target and the
    configured mode exactly when [add_to_blocklist] has returned; and
    once both have returned the alert's [mitigation_cmd] is the value
    [apply_block] gave. *)
Theorem C5_mitigation_target_and_calls :
  forall (P : platform) (S : services) (self : engine)
         (st : state) (pkt : value) (q' : PyQueue.t)
         (features : dict) (p : spec_float),
    pc st = InGet ->
    PyQueue.get (in_q st) = Some (pkt, q') ->
    is_error pkt = false ->
    FeatureExtractor.extract_features P (received st) pkt = Ok features ->
    LoadModel.predict_proba (pipeline S) features = Ok p ->
    fge p (threshold self) = true ->
    let st' := step P S self st in
    let src := get features "src_ip" PNone in
    let dst := get features "dst_ip" PNone in
    let ip := mitigation_target features in
    ip = (if truthy src then src else dst) /\
    filter is_mitigation (trace st') =
      (filter is_mitigation (trace st) ++
       AddToBlocklist ip ::
       match add_to_blocklist S ip with
       | Ok _ => [ApplyBlock ip (mitigation_mode self)]
       | Raise _ => []
       end)%list /\
    (forall cmd : value,
       add_to_blocklist S ip = Ok tt ->
       apply_block S ip (mitigation_mode self) = Ok cmd ->
       exists alert : dict,
         alerts_log (trace st') = (alerts_log (trace st) ++ [alert])%list /\
         lookup alert "mitigation_cmd" = Some cmd).
Proof.
  intros P S self st pkt q' features p Hpc Hget Herr Hf Hp Hge st' src dst ip.
  split; [reflexivity |].
  destruct (step_receive P S self st pkt q' Hpc Hget) as (Ht & _ & _ & _).
  rewrite (handle_scored P S self _ _ _ _ Herr Hf Hp) in Ht.
  unfold call, bind_io at 1 in Ht. rewrite Hge in Ht.
  rewrite handle_mitigation_calls in Ht.
  subst st' ip. split.
  - destruct (add_to_blocklist S (mitigation_target features)) as [u | e].
    + destruct (apply_block S (mitigation_target features) (mitigation_mode self));
        unfold bind_io, _log_alert, call in Ht; simpl in Ht;
        rewrite Ht, filter_app; reflexivity.
    + unfold bind_io in Ht. simpl in Ht. rewrite Ht, filter_app. reflexivity.
  - intros cmd Hadd Happly. rewrite Hadd, Happly in Ht.
    unfold bind_io, _log_alert, call in Ht. simpl in Ht.
    rewrite Ht, alerts_log_app. simpl.
    eexists. split; reflexivity.
Qed.

Lemma C5_mitigation_target_and_calls_witness :
  filter is_mitigation
    (trace (step Demo.utc Demo.scenario_A Demo.engine_075
                 (Demo.waiting [Demo.pkt_4444] false))) =
    [AddToBlocklist (PStr "192.0.2.7"); ApplyBlock (PStr "192.0.2.7") "dry-run"] /\
  filter is_mitigation
    (trace (step Demo.utc Scenarios.readonly_blocklist Demo.engine_075
                 (Demo.waiting [Demo.pkt_4444] false))) =
    [AddToBlocklist (PStr "192.0.2.7")].
Proof.
  split.
  - exact (proj1 (proj2
      (C5_mitigation_target_and_calls Demo.utc Demo.scenario_A Demo.engine_075
         (Demo.waiting [Demo.pkt_4444] false) Demo.pkt_4444
         {| PyQueue.maxsize := 0; PyQueue.items := [] |}
         _ Demo.p09 eq_refl eq_refl eq_refl eq_refl eq_refl eq_refl))).
  - exact (proj1 (proj2
      (C5_mitigation_target_and_calls Demo.utc Scenarios.readonly_blocklist Demo.engine_075
         (Demo.waiting [Demo.pkt_4444] false) Demo.pkt_4444
         {| PyQueue.maxsize := 0; PyQueue.items := [] |}
         _ Demo.p09 eq_refl eq_refl eq_refl eq_refl eq_refl eq_refl))).
Defined.

(** An observation scored above the threshold whose two addresses are
    empty strings: neither is truthy, yet mitigation is not skipped.
    Both helpers are called, with the empty string as the target, and
    the command field of the alert is whatever [apply_block] answered
    for it. *)
Lemma C5_counterexample :
  let st' := step Demo.utc Demo.scenario_A Demo.engine_075
                  (Demo.waiting [Demo.pkt_no_address] false) in
  exists features : dict,
    FeatureExtractor.extract_features Demo.utc 0 Demo.pkt_no_address = Ok features /\
    truthy (get features "src_ip" PNone) = false /\
    truthy (get features "dst_ip" PNone) = false /\
    filter is_mitigation (trace st') =
      [AddToBlocklist (PStr ""); ApplyBlock (PStr "") "dry-run"] /\
    exists (alert : dict) (cmd : value),
      alerts_log (trace st') = [alert] /\
      apply_block Demo.scenario_A (PStr "") "dry-run" = Ok cmd /\
      lookup alert "mitigation_cmd" = Some cmd.
Proof.
  eexists. split; [vm_compute; reflexivity |].
  split; [reflexivity |]. split; [reflexivity |].
  split; [vm_compute; reflexivity |].
  eexists. eexists. split; [vm_compute; reflexivity |].
  split; vm_compute; reflexivity.
Qed.

(** *** Feature extraction *)

(** The record [extract_features] builds when it returns. *)
Lemma extract_features_inv (P : platform) (n : nat) (d features : dict) :
  FeatureExtractor.extract_features P n (PDict d) = Ok features ->
  exists (proto flags : string) (tod : spec_float),
    FeatureExtractor._normalize_protocol P (get d "protocol" PNone) = Ok proto /\
    (if truthy (get d "tcp_flags" PNone)
     then str (repr P) (get d "tcp_flags" (PStr ""))
     else Ok "") = Ok flags /\
    FeatureExtractor.normalize_time_of_day P
      (get d "timestamp" (PFloat (time_time P n))) = Ok tod /\
    features =
      [ ("src_ip", get d "src_ip" (PStr "0.0.0.0"));
        ("dst_ip", get d "dst_ip" (PStr "0.0.0.0"));
        ("src_port", PInt (FeatureExtractor.safe_int (get d "src_port" (PInt 0)) 0));
        ("dst_port", PInt (FeatureExtractor.safe_int (get d "dst_port" (PInt 0)) 0));
        ("protocol", PStr proto);
        ("length", PInt (FeatureExtractor.safe_int (get d "length" (PInt 0)) 0));
        ("tcp_flags", PStr flags);
        ("time_of_day", PFloat tod) ].
Proof.
  unfold FeatureExtractor.extract_features. cbn [dict_of bind].
  destruct (FeatureExtractor._normalize_protocol P (get d "protocol" PNone))
    as [proto | e]; [| discriminate].
  cbn [bind].
  destruct (if truthy (get d "tcp_flags" PNone)
            then str (repr P) (get d "tcp_flags" (PStr ""))
            else Ok "") as [flags | e]; [| discriminate].
  cbn [bind].
  destruct (FeatureExtractor.normalize_time_of_day P
              (get d "timestamp" (PFloat (time_time P n)))) as [tod | e];
    [| discriminate].
  intros H. injection H as <-. exists proto, flags, tod. repeat split; reflexivity.
Qed.

(** [extract_features] returns when the three calls that are not
    guarded do: [str] on the protocol, [str] on the flags, and the
    local-time conversion of the timestamp (or of the clock reading,
    when the key is absent). *)
Lemma extract_features_returns (P : platform) (n : nat) (d : dict)
      (proto flags : string) (dt : datetime) :
  FeatureExtractor._normalize_protocol P (get d "protocol" PNone) = Ok proto ->
  (if truthy (get d "tcp_flags" PNone)
   then str (repr P) (get d "tcp_flags" (PStr ""))
   else Ok "") = Ok flags ->
  fromtimestamp (localtime P) (get d "timestamp" (PFloat (time_time P n))) = Ok dt ->
  exists features : dict,
    FeatureExtractor.extract_features P n (PDict d) = Ok features.
Proof.
  intros Hp Hf H. unfold FeatureExtractor.extract_features.
  cbn [dict_of bind]. rewrite Hp. cbn [bind]. rewrite Hf. cbn [bind].
  unfold FeatureExtractor.normalize_time_of_day.
  rewrite H. cbn [bind]. eexists. reflexivity.
Qed.

(** The defaults of the numeric, protocol and flag fields. *)
Lemma safe_int_total (x : value) :
  FeatureExtractor.safe_int x 0 =
    match int x with Ok z => z | Raise _ => 0 end.
Proof. reflexivity. Qed.

Lemma protocol_tag_range (p : string) :
  In (FeatureExtractor.protocol_tag p) ["TCP"; "UDP"; "ICMP"; "OTHER"].
Proof.
  unfold FeatureExtractor.protocol_tag.
  destruct (contains "TCP" _); [simpl; tauto |].
  destruct (contains "UDP" _); [simpl; tauto |].
  destruct (contains "ICMP" _); simpl; tauto.
Qed.

Lemma normalize_protocol_range (P : platform) (v : value) (tag : string) :
  FeatureExtractor._normalize_protocol P v = Ok tag ->
  In tag ["TCP"; "UDP"; "ICMP"; "OTHER"].
Proof.
  unfold FeatureExtractor._normalize_protocol.
  destruct (negb (truthy v)).
  - intros H. injection H as <-. simpl. tauto.
  - destruct (str (repr P) v) as [text | e]; cbn [bind]; [| discriminate].
    intros H. injection H as <-. apply protocol_tag_range.
Qed.

(** C2 (where the code departs from it): on a packet whose timestamp is
    a string, [extract_features] raises the [TypeError] of
    [datetime.fromtimestamp], on every platform and at every clock
    reading; no feature record is returned. *)
Theorem C2_non_numeric_timestamp_raises :
  forall (P : platform) (n : nat),
    FeatureExtractor.extract_features P n Demo.pkt_bad_timestamp =
      Raise (Exn "TypeError" "'str' object cannot be interpreted as an integer").
Proof. intros P n. reflexivity. Qed.

(** The same for any packet dict whose timestamp is not a number. *)
Lemma extract_features_raises_on_text (P : platform) (n : nat) (d : dict) (s : string) :
  lookup d "timestamp" = Some (PStr s) ->
  is_ok (FeatureExtractor.extract_features P n (PDict d)) = false.
Proof.
  intros H. unfold FeatureExtractor.extract_features.
  cbn [dict_of bind].
  destruct (FeatureExtractor._normalize_protocol P (get d "protocol" PNone));
    [| reflexivity].
  cbn [bind].
  destruct (if truthy (get d "tcp_flags" PNone)
            then str (repr P) (get d "tcp_flags" (PStr ""))
            else Ok ""); [| reflexivity].
  cbn [bind]. unfold FeatureExtractor.normalize_time_of_day, get.
  rewrite H. reflexivity.
Qed.

(** C10 (as the code has it): when [extract_features] returns, each
    address field holds the packet's value for the key, unchanged, when
    the key is present, and ["0.0.0.0"] when it is absent.  So the
    mitigation target is truthy as soon as one of the two keys is
    absent or holds a truthy value, and it is falsy exactly when both
    values, after defaulting, are falsy. *)
Theorem C10_addresses_pass_through :
  forall (P : platform) (n : nat) (d features : dict),
    FeatureExtractor.extract_features P n (PDict d) = Ok features ->
    lookup features "src_ip" = Some (get d "src_ip" (PStr "0.0.0.0")) /\
    lookup features "dst_ip" = Some (get d "dst_ip" (PStr "0.0.0.0")) /\
    (lookup d "src_ip" = None -> lookup features "src_ip" = Some (PStr "0.0.0.0")) /\
    (lookup d "dst_ip" = None -> lookup features "dst_ip" = Some (PStr "0.0.0.0")) /\
    (lookup d "src_ip" = None \/ lookup d "dst_ip" = None \/
     truthy (get d "src_ip" PNone) = true \/ truthy (get d "dst_ip" PNone) = true ->
     truthy (mitigation_target features) = true) /\
    (truthy (mitigation_target features) = false <->
     truthy (get d "src_ip" (PStr "0.0.0.0")) = false /\
     truthy (get d "dst_ip" (PStr "0.0.0.0")) = false).
Proof.
  intros P n d features H.
  destruct (extract_features_inv P n d features H)
    as (proto & flags & tod & _ & _ & _ & Heq).
  assert (Ls : lookup features "src_ip" = Some (get d "src_ip" (PStr "0.0.0.0")))
    by (rewrite Heq; reflexivity).
  assert (Ld : lookup features "dst_ip" = Some (get d "dst_ip" (PStr "0.0.0.0")))
    by (rewrite Heq; reflexivity).
  clear Heq H.
  assert (Gs : get features "src_ip" PNone = get d "src_ip" (PStr "0.0.0.0"))
    by (unfold get at 1; rewrite Ls; reflexivity).
  assert (Gd : get features "dst_ip" PNone = get d "dst_ip" (PStr "0.0.0.0"))
    by (unfold get at 1; rewrite Ld; reflexivity).
  unfold mitigation_target, or_. rewrite Gs, Gd, Ls, Ld. clear Gs Gd Ls Ld.
  unfold get.
  destruct (lookup d "src_ip") as [s |], (lookup d "dst_ip") as [t |];
    cbn [truthy String.eqb negb];
    try (destruct (truthy s) eqn:Ts); try (destruct (truthy t) eqn:Tt);
    cbn [truthy String.eqb negb]; rewrite ?Ts, ?Tt;
    intuition (try discriminate; try reflexivity; try congruence).
Qed.

Lemma C10_addresses_pass_through_witness :
  exists features : dict,
    FeatureExtractor.extract_features Demo.utc 0 (PDict [("dst_port", PInt 80)]) = Ok features /\
    lookup features "src_ip" = Some (PStr "0.0.0.0") /\
    lookup features "dst_ip" = Some (PStr "0.0.0.0") /\
    truthy (mitigation_target features) = true.
Proof.
  eexists. split; [vm_compute; reflexivity |].
  destruct (C10_addresses_pass_through Demo.utc 0 [("dst_port", PInt 80)] _ eq_refl)
    as (_ & _ & Hs & Hd & Ht & _).
  split; [exact (Hs eq_refl) |].
  split; [exact (Hd eq_refl) |].
  exact (Ht (or_introl eq_refl)).
Defined.

(** A packet dict whose address keys are present and hold the empty
    string: the extracted address fields are empty and the mitigation
    target computed from the record is the empty string, which is
    falsy. *)
Lemma C10_counterexample :
  exists features : dict,
    FeatureExtractor.extract_features Demo.utc 0 Demo.pkt_no_address = Ok features /\
    lookup features "src_ip" = Some (PStr "") /\
    lookup features "dst_ip" = Some (PStr "") /\
    mitigation_target features = PStr "" /\
    truthy (mitigation_target features) = false.
Proof.
  eexists. split; [vm_compute; reflexivity |].
  repeat split; reflexivity.
Qed.

(** *** The capture-file source *)

(** On an empty queue the consumer only polls: nothing is done to the
    outside and the queue stays empty. *)
Lemma step_idle (P : platform) (S : services) (self : engine) (st : state) :
  PyQueue.items (in_q st) = [] ->
  trace (step P S self st) = trace st /\
  PyQueue.items (in_q (step P S self st)) = [].
Proof.
  intros H. unfold step.
  destruct (pc st); try (split; [reflexivity | exact H]).
  - destruct (stop_event st); split; try reflexivity; exact H.
  - unfold PyQueue.get. rewrite H. split; [reflexivity | exact H].
Qed.

Lemma run_idle (P : platform) (S : services) (self : engine) (n : nat) :
  forall st : state,
    PyQueue.items (in_q st) = [] -> trace (run P S self n st) = trace st.
Proof.
  induction n as [| n IH]; intros st H; [reflexivity |].
  simpl. destruct (step_idle P S self st H) as [Ht Hq].
  rewrite (IH _ Hq). exact Ht.
Qed.

(** An engine started on a channel that holds one error item: the
    first move enters [get], the second logs the error, and from then
    on the consumer polls an empty queue. *)
Lemma run_single_error (P : platform) (S : services) (self : engine)
      (item : value) (n : nat) :
  is_error item = true ->
  trace (run P S self n (start (put item (init Main.pkt_q)))) =
    match n with
    | O | Datatypes.S O => []
    | _ => [LogAlert (time_strftime P 0)
                     [("type", PStr "sniffer_error"); ("msg", error_msg item)]]
    end.
Proof.
  intros Herr.
  destruct n as [| [| n]]; [reflexivity | reflexivity |].
  change (run P S self (Datatypes.S (Datatypes.S n)) (start (put item (init Main.pkt_q))))
    with (run P S self n
            (step P S self (step P S self (start (put item (init Main.pkt_q)))))).
  assert (H2 : step P S self (step P S self (start (put item (init Main.pkt_q)))) =
               {| in_q := {| PyQueue.maxsize := 0; PyQueue.items := [] |};
                  stop_event := false; pc := LoopHead;
                  trace := [LogAlert (time_strftime P 0)
                              [("type", PStr "sniffer_error"); ("msg", error_msg item)]];
                  received := 1; timeouts := 0 |}).
  { unfold step at 1. cbn [start put init step pc in_q stop_event trace received timeouts
                           PyQueue.put PyQueue.full PyQueue.Queue PyQueue.maxsize
                           PyQueue.items PyQueue.get Main.pkt_q Z.ltb Z.compare andb app].
    rewrite (handle_error P S self 0%nat item Herr). reflexivity. }
  rewrite H2. rewrite run_idle by reflexivity. reflexivity.
Qed.

(** C7: in [pcap] mode with a path given, when [rdpcap] raises (the
    file does not exist or cannot be parsed) the producer puts exactly
    one item on the channel, an acquisition-error signal, and returns.
    An engine consuming that channel never calls the classifier nor
    the mitigation helpers, and its alert log holds exactly the one
    [sniffer_error] entry once the item has been received. *)
Theorem C7_unreadable_capture_single_error :
  forall (P : platform) (C : PacketSniffer.capture) (stop_at : nat -> bool)
         (fuel : nat) (iface pcap : value) (e : exn)
         (S : services) (self : engine),
    truthy pcap = true ->
    PacketSniffer.rdpcap C pcap = Raise e ->
    exists item : value,
      PacketSniffer.start_sniff P C stop_at fuel "pcap" iface pcap =
        ([item], PacketSniffer.Returned) /\
      is_error item = true /\
      forall n : nat,
        let st := run P S self n (start (put item (init Main.pkt_q))) in
        filter is_predict (trace st) = [] /\
        filter is_mitigation (trace st) = [] /\
        ((2 <= n)%nat ->
         alerts_log (trace st) =
           [[("type", PStr "sniffer_error"); ("msg", error_msg item)]]).
Proof.
  intros P C stop_at fuel iface pcap e S self Hpath Hread.
  assert (Hitem : exists item : value,
             PacketSniffer.start_sniff P C stop_at fuel "pcap" iface pcap =
               ([item], PacketSniffer.Returned) /\ is_error item = true).
  { unfold PacketSniffer.start_sniff. cbn [String.eqb Ascii.eqb Bool.eqb].
    destruct (PacketSniffer.scapy_import C) as [u | e0].
    - rewrite Hpath, Hread. cbn [negb]. eexists. split; reflexivity.
    - eexists. split; reflexivity. }
  destruct Hitem as (item & Hrun & Herr).
  exists item. split; [exact Hrun |]. split; [exact Herr |].
  intros n st. subst st. rewrite (run_single_error P S self item n Herr).
  destruct n as [| [| n]]; repeat split; try reflexivity; intros Hn; lia.
Qed.

Lemma C7_unreadable_capture_single_error_witness :
  exists item : value,
    PacketSniffer.start_sniff Demo.utc Demo.missing_file Demo.never 0 "pcap"
                              PNone (PStr "/no/such/file.pcap") =
      ([item], PacketSniffer.Returned) /\
    is_error item = true /\
    filter is_predict
      (trace (run Demo.utc Demo.scenario_A Demo.engine_075 5
                  (start (put item (init Main.pkt_q))))) = [].
Proof.
  destruct (C7_unreadable_capture_single_error Demo.utc Demo.missing_file Demo.never 0
              PNone (PStr "/no/such/file.pcap")
              (Exn "FileNotFoundError" "No such file or directory")
              Demo.scenario_A Demo.engine_075 eq_refl eq_refl)
    as (item & Hrun & Herr & Hengine).
  exists item. split; [exact Hrun |]. split; [exact Herr |].
  exact (proj1 (Hengine 5%nat)).
Defined.

(** [_scapy_to_dict] gives a dict exactly for a packet with an IP
    layer, and [None] otherwise. *)
Lemma scapy_to_dict_truthy (now : spec_float) (p : PacketSniffer.scapy_packet) :
  truthy (PacketSniffer._scapy_to_dict now p) = PacketSniffer.has_ip p.
Proof.
  unfold PacketSniffer._scapy_to_dict, PacketSniffer._scapy_to_dict_try,
    PacketSniffer.has_ip.
  destruct (PacketSniffer.tcp_layer p) as [[[sport dport] flags] |];
    [| destruct (PacketSniffer.udp_layer p) as [[sport dport] |];
       [| destruct (PacketSniffer.icmp_layer p)]];
    destruct (PacketSniffer.ip_layer p); reflexivity.
Qed.

Lemma records_read_never (stop_at : nat -> bool) (packets : list PacketSniffer.scapy_packet) :
  (forall i : nat, stop_at i = false) ->
  forall i : nat, PacketSniffer.records_read stop_at i packets = List.length packets.
Proof.
  intros Hnever. induction packets as [| p rest IH]; intros i; [reflexivity |].
  simpl. rewrite Hnever, IH. reflexivity.
Qed.

(** The replay loop puts, in order, one item for each record with an
    IP layer among those it reaches. *)
Lemma replay_spec (P : platform) (stop_at : nat -> bool)
      (packets : list PacketSniffer.scapy_packet) :
  forall i : nat,
    Forall2 (fun (item : value) (p : PacketSniffer.scapy_packet) =>
               exists j : nat,
                 item = PacketSniffer._scapy_to_dict (time_time P j) p /\
                 truthy item = true)
            (PacketSniffer.replay P stop_at i packets)
            (filter PacketSniffer.has_ip
                    (firstn (PacketSniffer.records_read stop_at i packets) packets)).
Proof.
  induction packets as [| p rest IH]; intros i; [constructor |].
  simpl. destruct (stop_at i); [constructor |].
  simpl. rewrite scapy_to_dict_truthy.
  destruct (PacketSniffer.has_ip p) eqn:Hip; simpl.
  - constructor; [| apply IH].
    exists i. split; [reflexivity |]. rewrite scapy_to_dict_truthy. exact Hip.
  - apply IH.
Qed.

(** C9 (as the code has it): once the capture has been read, the
    producer replays, in order and once each, the records that have an
    IP layer among those it reaches before it sees the stop signal,
    and then returns; a record without an IP layer is left out.  When
    the stop signal is never seen, every record is reached. *)
Theorem C9_replay_converts_ip_records :
  forall (P : platform) (C : PacketSniffer.capture) (stop_at : nat -> bool)
         (fuel : nat) (iface pcap : value)
         (packets : list PacketSniffer.scapy_packet),
    PacketSniffer.scapy_import C = Ok tt ->
    truthy pcap = true ->
    PacketSniffer.rdpcap C pcap = Ok packets ->
    let out := PacketSniffer.start_sniff P C stop_at fuel "pcap" iface pcap in
    let reached := PacketSniffer.records_read stop_at 0 packets in
    snd out = PacketSniffer.Returned /\
    Forall2 (fun (item : value) (p : PacketSniffer.scapy_packet) =>
               exists j : nat,
                 item = PacketSniffer._scapy_to_dict (time_time P j) p /\
                 truthy item = true)
            (fst out)
            (filter PacketSniffer.has_ip (firstn reached packets)) /\
    List.length (fst out) =
      List.length (filter PacketSniffer.has_ip (firstn reached packets)) /\
    ((forall i : nat, stop_at i = false) -> reached = List.length packets).
Proof.
  intros P C stop_at fuel iface pcap packets Himp Hpath Hread out reached.
  assert (Hout : out = (PacketSniffer.replay P stop_at 0 packets, PacketSniffer.Returned)).
  { subst out. unfold PacketSniffer.start_sniff.
    cbn [String.eqb Ascii.eqb Bool.eqb]. rewrite Himp, Hpath, Hread. reflexivity. }
  rewrite Hout. cbn [fst snd]. subst reached.
  split; [reflexivity |].
  split; [apply replay_spec |].
  split; [exact (Forall2_length (replay_spec P stop_at packets 0%nat)) |].
  intros Hnever. apply records_read_never. exact Hnever.
Qed.

Lemma C9_replay_converts_ip_records_witness :
  List.length (fst (PacketSniffer.start_sniff Demo.utc Demo.arp_then_tcp Demo.never 0
                      "pcap" PNone (PStr "capture.pcap"))) = 1%nat.
Proof.
  destruct (C9_replay_converts_ip_records Demo.utc Demo.arp_then_tcp Demo.never 0
              PNone (PStr "capture.pcap") [Demo.arp_frame; Demo.tcp_segment]
              eq_refl eq_refl eq_refl) as (_ & _ & Hlen & _).
  exact Hlen.
Defined.

(** A capture that opens and holds two records, an ARP frame and a TCP
    segment, with the stop signal never set: only the TCP segment
    reaches the channel.  The ARP frame is neither replayed nor
    reported. *)
Lemma C9_counterexample :
  PacketSniffer.rdpcap Demo.arp_then_tcp (PStr "capture.pcap") =
    Ok [Demo.arp_frame; Demo.tcp_segment] /\
  PacketSniffer.start_sniff Demo.utc Demo.arp_then_tcp Demo.never 0
                            "pcap" PNone (PStr "capture.pcap") =
    ([PDict [ ("src_ip", PStr "192.0.2.7"); ("dst_ip", PStr "198.51.100.9");
              ("src_port", PInt 52344); ("dst_port", PInt 4444);
              ("protocol", PStr "TCP"); ("length", PInt 60);
              ("tcp_flags", PStr "S");
              ("timestamp", PFloat (time_time Demo.utc 1)) ]],
     PacketSniffer.Returned) /\
  PacketSniffer._scapy_to_dict (time_time Demo.utc 0) Demo.arp_frame = PNone.
Proof. repeat split; reflexivity. Qed.

(** *** The channel *)

Lemma put_unbounded (its : list value) (x : value) :
  PyQueue.put {| PyQueue.maxsize := 0; PyQueue.items := its |} x =
    Some {| PyQueue.maxsize := 0; PyQueue.items := its ++ [x] |}.
Proof. reflexivity. Qed.

Lemma put_all_unbounded (xs : list value) :
  forall its : list value,
    PyQueue.put_all {| PyQueue.maxsize := 0; PyQueue.items := its |} xs =
      ({| PyQueue.maxsize := 0; PyQueue.items := its ++ xs |}, []).
Proof.
  induction xs as [| x xs IH]; intros its; cbn [PyQueue.put_all].
  - rewrite app_nil_r. reflexivity.
  - rewrite put_unbounded, IH, <- app_assoc. reflexivity.
Qed.

Lemma simulate_loop_length (P : platform) (C : PacketSniffer.capture)
      (stop_at : nat -> bool) (fuel : nat) :
  (forall i : nat, stop_at i = false) ->
  forall i : nat,
    List.length (fst (PacketSniffer.simulate_loop P C stop_at fuel i)) = fuel.
Proof.
  intros Hnever. induction fuel as [| fuel IH]; intros i; [reflexivity |].
  simpl. rewrite Hnever.
  specialize (IH (Datatypes.S i)).
  destruct (PacketSniffer.simulate_loop P C stop_at fuel (Datatypes.S i)) as [out e].
  simpl in *. rewrite IH. reflexivity.
Qed.

(** C4 (as the code has it): the entry point creates the channel with
    [queue.Queue()], whose [maxsize] of 0 means no bound.  Such a queue
    is never full: a push never blocks and never drops, and with no
    consumer the queue holds every item pushed, so its length after
    [n] iterations of the simulate producer is [n].  A push blocks,
    without dropping or storing the item, only on a queue created with
    a positive [maxsize] that is full. *)
Theorem C4_entry_point_channel_unbounded :
  PyQueue.maxsize Main.pkt_q = 0 /\
  (forall (its : list value) (x : value),
     PyQueue.full {| PyQueue.maxsize := 0; PyQueue.items := its |} = false /\
     PyQueue.put {| PyQueue.maxsize := 0; PyQueue.items := its |} x =
       Some {| PyQueue.maxsize := 0; PyQueue.items := its ++ [x] |}) /\
  (forall xs : list value,
     PyQueue.put_all Main.pkt_q xs =
       ({| PyQueue.maxsize := 0; PyQueue.items := xs |}, [])) /\
  (forall (P : platform) (C : PacketSniffer.capture) (n : nat),
     PyQueue.qsize
       (fst (PyQueue.put_all Main.pkt_q
               (fst (PacketSniffer.simulate_loop P C (fun _ => false) n 0)))) =
     Z.of_nat n) /\
  (forall (m : Z) (its : list value) (x : value),
     0 < m -> m <= Z.of_nat (List.length its) ->
     PyQueue.put {| PyQueue.maxsize := m; PyQueue.items := its |} x = None).
Proof.
  split; [reflexivity |].
  split; [intros its x; split; reflexivity |].
  split; [intros xs; exact (put_all_unbounded xs []) |].
  split.
  - intros P C n. unfold Main.pkt_q, PyQueue.Queue.
    rewrite put_all_unbounded. unfold PyQueue.qsize. cbn [fst PyQueue.items app].
    rewrite simulate_loop_length by reflexivity. reflexivity.
  - intros m its x Hpos Hfull. unfold PyQueue.put, PyQueue.full, PyQueue.qsize.
    cbn [PyQueue.maxsize PyQueue.items].
    destruct (Z.ltb_spec 0 m); [| lia].
    destruct (Z.leb_spec m (Z.of_nat (List.length its))); [reflexivity | lia].
Qed.

Lemma C4_entry_point_channel_unbounded_witness :
  PyQueue.put {| PyQueue.maxsize := 1; PyQueue.items := [Demo.pkt_80] |} Demo.pkt_4444 = None /\
  PyQueue.put_all Main.pkt_q [Demo.pkt_80; Demo.pkt_4444; Demo.pkt_80] =
    ({| PyQueue.maxsize := 0; PyQueue.items := [Demo.pkt_80; Demo.pkt_4444; Demo.pkt_80] |}, []).
Proof.
  destruct C4_entry_point_channel_unbounded as (_ & _ & Hall & _ & Hblock).
  split.
  - apply Hblock; simpl; lia.
  - apply Hall.
Defined.

(** No capacity bounds the channel the entry point creates: whatever
    bound is proposed, a producer that outruns the consumer by more
    items than that has them all queued. *)
Lemma C4_counterexample :
  ~ (exists cap : Z,
       forall xs : list value,
         PyQueue.qsize (fst (PyQueue.put_all Main.pkt_q xs)) <= cap).
Proof.
  intros [cap Hcap].
  specialize (Hcap (repeat PNone (Datatypes.S (Z.to_nat cap)))).
  unfold Main.pkt_q, PyQueue.Queue in Hcap.
  rewrite put_all_unbounded in Hcap. unfold PyQueue.qsize in Hcap.
  cbn [fst PyQueue.items app] in Hcap. rewrite repeat_length in Hcap. lia.
Qed.

(** *** Shutdown *)

Section Shutdown.
Variable P : platform.
Variable S : services.
Variable self : engine.

Ltac split_act :=
  repeat match goal with
    | |- context [match pc ?s with _ => _ end] => destruct (pc s) eqn:?
    | |- context [PyQueue.get ?q] => destruct (PyQueue.get q) as [[? ?] |]
    | |- context [handle ?p ?s ?e ?n ?x] => destruct (handle p s e n x) as [? [? | ?]]
    | |- context [PyQueue.put ?q ?x] => destruct (PyQueue.put q x)
    end.

(** No action clears the stop signal, and with the signal set an
    action never adds to what the thread may still receive. *)
Lemma act_after_stop (a : action) (st : state) :
  stop_event st = true ->
  stop_event (act P S self a st) = true /\
  (received (act P S self a st) + timeouts (act P S self a st) +
   pending_receives (pc (act P S self a st)) <=
   received st + timeouts st + pending_receives (pc st))%nat.
Proof.
  intros Hstop. destruct a; unfold act, step, start, stop, put;
    rewrite ?Hstop; split_act; cbn; rewrite ?Hstop;
    repeat match goal with H : pc _ = _ |- _ => rewrite H end; cbn;
    split; try reflexivity; try assumption; lia.
Qed.

(** With the signal set, a move of the thread uses up one of the moves
    it has left, and nothing but [start] gives it more. *)
Lemma act_moves_left (a : action) (st : state) :
  stop_event st = true ->
  is_start a = false ->
  (moves_left (pc (act P S self a st)) + (if is_step a then 1 else 0) <=
   Nat.max (moves_left (pc st)) (if is_step a then 1 else 0))%nat.
Proof.
  intros Hstop Hns. destruct a; try discriminate Hns;
    unfold act, step, stop, put; rewrite ?Hstop;
    destruct (pc st) eqn:Hpc; split_act; cbn; rewrite ?Hpc; cbn; lia.
Qed.

(** Outside [get], with the signal set, nothing is received any more. *)
Lemma act_outside_get (a : action) (st : state) :
  stop_event st = true ->
  pc st <> InGet ->
  stop_event (act P S self a st) = true /\
  pc (act P S self a st) <> InGet /\
  received (act P S self a st) = received st /\
  trace (act P S self a st) = trace st.
Proof.
  intros Hstop Hpc. destruct a; unfold act, step, start, stop, put;
    rewrite ?Hstop; split_act; cbn; rewrite ?Hstop;
    repeat match goal with H : pc _ = _ |- _ => rewrite H end;
    repeat split; try reflexivity; try assumption; try discriminate;
    try congruence.
Qed.

Lemma exec_after_stop (acts : list action) :
  forall st : state,
    stop_event st = true ->
    stop_event (exec P S self acts st) = true /\
    (received (exec P S self acts st) + timeouts (exec P S self acts st) +
     pending_receives (pc (exec P S self acts st)) <=
     received st + timeouts st + pending_receives (pc st))%nat.
Proof.
  induction acts as [| a acts IH]; intros st Hstop; simpl; [split; [assumption | lia] |].
  destruct (act_after_stop a st Hstop) as [Hs Hle].
  destruct (IH _ Hs) as [Hs' Hle']. split; [exact Hs' | lia].
Qed.

Lemma exec_moves_left (acts : list action) :
  forall st : state,
    stop_event st = true ->
    existsb is_start acts = false ->
    (moves_left (pc (exec P S self acts st)) + count_steps acts <=
     Nat.max (moves_left (pc st)) (count_steps acts))%nat.
Proof.
  induction acts as [| a acts IH]; intros st Hstop Hns.
  - unfold count_steps. cbn [exec filter List.length]. lia.
  - cbn [existsb] in Hns. apply orb_false_iff in Hns. destruct Hns as [Ha Hns].
    pose proof (act_moves_left a st Hstop Ha) as Hle.
    destruct (act_after_stop a st Hstop) as [Hs _].
    specialize (IH _ Hs Hns).
    unfold count_steps in *. cbn [exec filter].
    destruct (is_step a); cbn [List.length]; lia.
Qed.

Lemma exec_outside_get (acts : list action) :
  forall st : state,
    stop_event st = true ->
    pc st <> InGet ->
    pc (exec P S self acts st) <> InGet /\
    received (exec P S self acts st) = received st /\
    trace (exec P S self acts st) = trace st.
Proof.
  induction acts as [| a acts IH]; intros st Hstop Hpc; simpl; [auto |].
  destruct (act_outside_get a st Hstop Hpc) as (Hs & Hp & Hr & Ht).
  destruct (IH _ Hs Hp) as (Hp' & Hr' & Ht').
  rewrite Hr', Ht'. auto.
Qed.

End Shutdown.

(** C8: once the stop signal is set it stays set, whatever happens
    next (moves of the thread, [put]s, [stop] or [start] calls), and
    the consumer completes at most the receive it is in: one more item
    or one more receive timeout, never both.  Without a restart the
    thread has left the loop after two of its moves; with zero pending
    items it exits having sat out at most one timeout and having done
    nothing else.  From outside [get] on, nothing is received or done
    any more, and a later [start] changes nothing to that, since
    nothing clears the signal. *)
Theorem C8_stop_ends_loop_within_one_receive :
  forall (P : platform) (S : services) (self : engine) (st : state),
    stop_event st = true ->
    (forall acts : list action,
       let st' := exec P S self acts st in
       stop_event st' = true /\
       (received st' + timeouts st' <=
        received st + timeouts st + pending_receives (pc st))%nat) /\
    (forall acts : list action,
       existsb is_start acts = false ->
       (2 <= count_steps acts)%nat ->
       is_running (pc (exec P S self acts st)) = false) /\
    (is_running (pc st) = true ->
     PyQueue.items (in_q st) = [] ->
     let st2 := run P S self 2 st in
     pc st2 = Exited /\
     trace st2 = trace st /\
     received st2 = received st /\
     (timeouts st2 <= timeouts st + 1)%nat) /\
    (pc st <> InGet ->
     forall acts : list action,
       let st' := exec P S self acts st in
       pc st' <> InGet /\
       received st' = received st /\
       trace st' = trace st).
Proof.
  intros P S self st Hstop.
  split; [| split; [| split]].
  - intros acts st'. destruct (exec_after_stop P S self acts st Hstop) as [Hs Hle].
    split; [exact Hs | subst st'; lia].
  - intros acts Hns Hsteps.
    pose proof (exec_moves_left P S self acts st Hstop Hns) as Hle.
    assert (Hm : (moves_left (pc st) <= 2)%nat) by (destruct (pc st); simpl; lia).
    destruct (pc (exec P S self acts st)); simpl in *; try reflexivity; lia.
  - intros Hrun Hempty st2. subst st2. cbn [run].
    destruct (pc st) eqn:Hpc; try discriminate Hrun.
    + assert (H1 : step P S self st =
                   {| in_q := in_q st; stop_event := stop_event st; pc := Exited;
                      trace := trace st; received := received st;
                      timeouts := timeouts st |})
        by (unfold step; rewrite Hpc, Hstop; reflexivity).
      rewrite H1. cbn. repeat split; try reflexivity; lia.
    + assert (H1 : step P S self st =
                   {| in_q := in_q st; stop_event := stop_event st; pc := LoopHead;
                      trace := trace st; received := received st;
                      timeouts := Datatypes.S (timeouts st) |})
        by (unfold step, PyQueue.get; rewrite Hpc, Hempty; reflexivity).
      rewrite H1. unfold step. cbn [pc stop_event]. rewrite Hstop. cbn.
      repeat split; try reflexivity; lia.
  - intros Hpc acts st'. exact (exec_outside_get P S self acts st Hstop Hpc).
Qed.

Lemma C8_stop_ends_loop_within_one_receive_witness :
  let st2 := run Demo.utc Demo.scenario_A Demo.engine_075 2 (Demo.waiting [] true) in
  pc st2 = Exited /\
  (timeouts st2 <= 1)%nat /\
  received (exec Demo.utc Demo.scenario_A Demo.engine_075
                 [AStart; APut Demo.pkt_4444; AStep; AStep; AStep] st2) = 0%nat.
Proof.
  destruct (C8_stop_ends_loop_within_one_receive Demo.utc Demo.scenario_A Demo.engine_075
              (Demo.waiting [] true) eq_refl) as (_ & _ & Hexit & _).
  destruct (Hexit eq_refl eq_refl) as (Hpc & _ & _ & Ht).
  split; [exact Hpc |]. split; [exact Ht |].
  destruct (C8_stop_ends_loop_within_one_receive Demo.utc Demo.scenario_A Demo.engine_075
              (run Demo.utc Demo.scenario_A Demo.engine_075 2 (Demo.waiting [] true))
              eq_refl) as (_ & _ & _ & Hout).
  destruct (Hout ltac:(discriminate)
                 [AStart; APut Demo.pkt_4444; AStep; AStep; AStep]) as (_ & Hr & _).
  exact Hr.
Defined.

(* ================================================================== *)
(** ** Further properties of the code                                  *)
(* ================================================================== *)

Import Pipeline.

(** *** Protocol tags *)

Lemma prefix_iff (needle : string) :
  forall s : string,
    String.prefix needle s = true <-> exists post : string, s = needle ++ post.
Proof.
  induction needle as [| a needle IH]; intros s.
  - destruct s; simpl; split; intros; try reflexivity; eexists; reflexivity.
  - destruct s as [| b s]; simpl.
    + split; [discriminate | intros [post H]; discriminate H].
    + destruct (ascii_dec a b) as [-> | Hne].
      * rewrite IH. split; intros [post H]; exists post.
        -- now rewrite H.
        -- now injection H.
      * split; [discriminate |].
        intros [post H]. injection H as H1 _. congruence.
Qed.

Lemma contains_iff (needle : string) :
  forall s : string, contains needle s = true <-> occurs needle s.
Proof.
  unfold occurs. induction s as [| c s IH].
  - cbn [contains]. rewrite orb_false_r, prefix_iff. split.
    + intros [post H]. exists "", post. exact H.
    + intros (pre & post & H). destruct pre; [| discriminate H].
      exists post. exact H.
  - cbn [contains]. rewrite orb_true_iff, prefix_iff, IH. split.
    + intros [[post H] | (pre & post & H)].
      * exists "", post. exact H.
      * exists (String c pre), post. simpl. now rewrite H.
    + intros (pre & post & H). destruct pre as [| c' pre].
      * left. exists post. exact H.
      * right. simpl in H. injection H as _ H. exists pre, post. exact H.
Qed.

Lemma upper_empty (s : string) : String.eqb (upper s) "" = String.eqb s "".
Proof. destruct s; reflexivity. Qed.

(** [_normalize_protocol] either returns one of the four tags, and
    then normalising that tag again gives it back, or raises what
    [str] raised on its truthy argument; on a string it always
    returns. *)
Theorem normalize_protocol_fixpoint :
  forall (P : platform) (v : value),
    match FeatureExtractor._normalize_protocol P v with
    | Ok tag =>
        In tag ["TCP"; "UDP"; "ICMP"; "OTHER"] /\
        FeatureExtractor._normalize_protocol P (PStr tag) = Ok tag
    | Raise e =>
        truthy v = true /\ str (repr P) v = Raise e /\
        forall s : string, v <> PStr s
    end.
Proof.
  intros P v.
  destruct (FeatureExtractor._normalize_protocol P v) as [tag | e] eqn:Hv.
  - pose proof (normalize_protocol_range P v tag Hv) as H.
    split; [exact H |].
    simpl in H. destruct H as [<- | [<- | [<- | [<- | []]]]]; reflexivity.
  - unfold FeatureExtractor._normalize_protocol in Hv.
    destruct (truthy v); cbn [negb] in Hv; [| discriminate Hv].
    split; [reflexivity |].
    destruct (str (repr P) v) as [text | e'] eqn:Hs; cbn [bind] in Hv;
      [discriminate Hv |].
    injection Hv as ->. split; [reflexivity |].
    intros s ->. discriminate Hs.
Qed.

(** Two protocol strings that differ only by the case of their ASCII
    letters get the same tag. *)
Theorem normalize_protocol_case_insensitive :
  forall (P : platform) (s s' : string),
    upper s = upper s' ->
    FeatureExtractor._normalize_protocol P (PStr s) =
    FeatureExtractor._normalize_protocol P (PStr s').
Proof.
  intros P s s' H. unfold FeatureExtractor._normalize_protocol.
  cbn [truthy str bind]. rewrite <- (upper_empty s), <- (upper_empty s'), H.
  reflexivity.
Qed.

Lemma normalize_protocol_case_insensitive_witness :
  FeatureExtractor._normalize_protocol Demo.utc (PStr "Icmp-v4") =
  FeatureExtractor._normalize_protocol Demo.utc (PStr "iCMP-V4").
Proof.
  apply (normalize_protocol_case_insensitive Demo.utc "Icmp-v4" "iCMP-V4").
  reflexivity.
Defined.

(** What the tag of a protocol string says about the string: it is
    TCP exactly when "TCP" occurs in the upper-cased string, whatever
    else does; UDP when "UDP" occurs and "TCP" does not; ICMP when
    "ICMP" occurs and neither of the other two; OTHER exactly when
    none of the three occurs. *)
Theorem normalize_protocol_by_substring :
  forall (P : platform) (s : string),
    let tag := FeatureExtractor._normalize_protocol P (PStr s) in
    (tag = Ok "TCP" <-> occurs "TCP" (upper s)) /\
    (tag = Ok "UDP" <-> occurs "UDP" (upper s) /\ ~ occurs "TCP" (upper s)) /\
    (tag = Ok "ICMP" <->
       occurs "ICMP" (upper s) /\ ~ occurs "TCP" (upper s) /\ ~ occurs "UDP" (upper s)) /\
    (tag = Ok "OTHER" <->
       ~ occurs "TCP" (upper s) /\ ~ occurs "UDP" (upper s) /\ ~ occurs "ICMP" (upper s)).
Proof.
  intros P s tag. subst tag.
  unfold FeatureExtractor._normalize_protocol, FeatureExtractor.protocol_tag.
  cbn [truthy str bind]. rewrite <- !contains_iff.
  destruct s as [| c s].
  - cbn. repeat split; intros; try discriminate; intuition discriminate.
  - cbn [String.eqb negb].
    destruct (contains "TCP" (upper (String c s)));
      destruct (contains "UDP" (upper (String c s)));
      destruct (contains "ICMP" (upper (String c s)));
      repeat split; intros; try discriminate; try reflexivity;
      intuition discriminate.
Qed.

Lemma normalize_protocol_by_substring_witness :
  FeatureExtractor._normalize_protocol Demo.utc (PStr "udp over tcp") = Ok "TCP".
Proof.
  destruct (normalize_protocol_by_substring Demo.utc "udp over tcp") as ([_ H] & _).
  apply H. exists "UDP OVER ", "". reflexivity.
Defined.

(** *** Numbers given as text *)

Lemma parse_digits_of_uint (d : Decimal.uint) :
  forall (acc : Z) (after_digit : bool),
    d <> Decimal.Nil \/ after_digit = true ->
    parse_digits (NilEmpty.string_of_uint d) acc after_digit =
      Some (digits_value d acc).
Proof.
  induction d; intros acc after_digit H;
    try (cbn [NilEmpty.string_of_uint parse_digits digits_value];
         match goal with
         | |- context [digit_of ?c] =>
             let v := eval vm_compute in (digit_of c) in
             change (digit_of c) with v
         end;
         cbv iota beta;
         rewrite IHd by (right; reflexivity); f_equal; f_equal; lia).
  destruct H as [H | ->]; [congruence | reflexivity].
Qed.

Lemma digits_value_pos (d : Decimal.uint) :
  forall acc : positive,
    digits_value d (Zpos acc) = Zpos (Pos.of_uint_acc d acc).
Proof.
  induction d; intros acc; cbn [digits_value Pos.of_uint_acc];
    try reflexivity;
    match goal with
    | |- digits_value _ ?z = Zpos (Pos.of_uint_acc _ ?p) =>
        replace z with (Zpos p) by lia
    end; apply IHd.
Qed.

Lemma digits_value_zero (d : Decimal.uint) :
  digits_value d 0 = Z.of_N (Pos.of_uint d).
Proof.
  induction d; cbn [digits_value Pos.of_uint]; try reflexivity;
    try exact IHd;
    match goal with
    | |- digits_value _ ?z = _ =>
        let v := eval vm_compute in z in
        change z with v
    end; rewrite digits_value_pos; reflexivity.
Qed.

Lemma parse_int_within_limit (s : string) :
  (digit_chars s <= max_str_digits)%nat ->
  parse_int s =
    match lstrip s with
    | String "-"%char s' => option_map Z.opp (parse_digits s' 0 false)
    | String "+"%char s' => parse_digits s' 0 false
    | s' => parse_digits s' 0 false
    end.
Proof.
  intros H. unfold parse_int.
  destruct (Nat.ltb_spec max_str_digits (digit_chars s)); [lia | reflexivity].
Qed.

Lemma parse_int_of_uint (d : Decimal.uint) :
  d <> Decimal.Nil ->
  (digit_chars (NilEmpty.string_of_uint d) <= max_str_digits)%nat ->
  parse_int (NilEmpty.string_of_uint d) = Some (digits_value d 0).
Proof.
  intros Hnn Hlim. rewrite (parse_int_within_limit _ Hlim). clear Hlim.
  destruct d; [congruence | ..];
    cbn [NilEmpty.string_of_uint lstrip];
    match goal with
    | |- context [is_space ?c] =>
        let v := eval vm_compute in (is_space c) in
        change (is_space c) with v
    end; cbv iota beta;
    match goal with
    | |- _ = Some (digits_value ?dd 0) =>
        exact (parse_digits_of_uint dd 0 false (or_introl Hnn))
    end.
Qed.

Lemma parse_int_decimal (z : Z) :
  (digit_chars (PacketSniffer.decimal z) <= max_str_digits)%nat ->
  parse_int (PacketSniffer.decimal z) = Some z.
Proof.
  unfold PacketSniffer.decimal. destruct z as [| p | p];
    [intros _; reflexivity | |];
    cbn [Z.to_int NilZero.string_of_int];
    pose proof (DecimalPos.Unsigned.to_uint_nonnil p) as Hnn;
    pose proof (DecimalPos.Unsigned.of_to p) as Hof;
    assert (Hs : NilZero.string_of_uint (Pos.to_uint p) =
                 NilEmpty.string_of_uint (Pos.to_uint p))
      by (unfold NilZero.string_of_uint;
          destruct (Pos.to_uint p); [congruence | reflexivity ..]);
    rewrite Hs; intros Hlim.
  - rewrite parse_int_of_uint by assumption.
    rewrite digits_value_zero, Hof. reflexivity.
  - rewrite (parse_int_within_limit _ Hlim). cbn [lstrip].
    change (is_space "-") with false. cbv iota beta.
    rewrite parse_digits_of_uint by (left; exact Hnn).
    rewrite digits_value_zero, Hof. reflexivity.
Qed.

(** *** Feature extraction, field by field *)

Lemma lookup_insert_other (d1 d2 : dict) (k k' : string) (v : value) :
  k <> k' ->
  lookup (d1 ++ (k, v) :: d2)%list k' = lookup (d1 ++ d2)%list k'.
Proof.
  intros Hne. induction d1 as [| [k0 v0] d1 IH]; simpl.
  - destruct (String.eqb_spec k k'); [contradiction | reflexivity].
  - rewrite IH. reflexivity.
Qed.

Lemma extract_features_dict (P : platform) (n : nat) (item : value) (features : dict) :
  FeatureExtractor.extract_features P n item = Ok features ->
  exists d : dict, item = PDict d.
Proof.
  intros H. destruct item; try discriminate H. eexists. reflexivity.
Qed.

(** When [extract_features] returns, the record has exactly the eight
    feature keys, in order; the two ports and the length are ints, the
    protocol is one of the four tags, the flags are a string and the
    time of day is a float, whatever the types in the packet were. *)
Theorem extract_features_shape :
  forall (P : platform) (n : nat) (item : value) (features : dict),
    FeatureExtractor.extract_features P n item = Ok features ->
    keys features = feature_keys /\
    exists (src dst : value) (sp dp len : Z) (proto flags : string) (tod : spec_float),
      features =
        [ ("src_ip", src); ("dst_ip", dst); ("src_port", PInt sp);
          ("dst_port", PInt dp); ("protocol", PStr proto); ("length", PInt len);
          ("tcp_flags", PStr flags); ("time_of_day", PFloat tod) ] /\
      In proto ["TCP"; "UDP"; "ICMP"; "OTHER"].
Proof.
  intros P n item features H.
  destruct (extract_features_dict P n item features H) as [d ->].
  destruct (extract_features_inv P n d features H)
    as (proto & flags & tod & Hp & _ & _ & ->).
  split; [reflexivity |].
  do 8 eexists. split; [reflexivity |].
  exact (normalize_protocol_range P _ proto Hp).
Qed.

Lemma extract_features_shape_witness :
  exists features : dict,
    FeatureExtractor.extract_features Demo.utc 0
      (PDict [("src_port", PStr "http"); ("length", PNone); ("protocol", PInt 6)]) =
      Ok features /\
    keys features = feature_keys.
Proof.
  eexists. split; [vm_compute; reflexivity |].
  exact (proj1 (extract_features_shape Demo.utc 0
                  (PDict [("src_port", PStr "http"); ("length", PNone);
                          ("protocol", PInt 6)]) _ eq_refl)).
Defined.

(** [extract_features] raises in four cases only, tried in this
    order: its argument is not a dict ([AttributeError]); the protocol
    value is truthy and [str] raises on it; the flags value is truthy
    and [str] raises on it; [datetime.fromtimestamp] raises on the
    timestamp (on the clock reading, when the key is absent).  It
    raises the exception of the first of these that does; the ports
    and the length cannot make it raise. *)
Theorem extract_features_raises_only_on_unguarded_calls :
  forall (P : platform) (n : nat) (item : value),
    match item with
    | PDict d =>
        let proto := get d "protocol" PNone in
        let flags := get d "tcp_flags" PNone in
        let ts := get d "timestamp" (PFloat (time_time P n)) in
        match (if truthy proto then str (repr P) proto else Ok ""),
              (if truthy flags then str (repr P) flags else Ok ""),
              fromtimestamp (localtime P) ts with
        | Raise e, _, _ => FeatureExtractor.extract_features P n item = Raise e
        | Ok _, Raise e, _ => FeatureExtractor.extract_features P n item = Raise e
        | Ok _, Ok _, Raise e => FeatureExtractor.extract_features P n item = Raise e
        | Ok _, Ok _, Ok _ =>
            exists features : dict,
              FeatureExtractor.extract_features P n item = Ok features
        end
    | _ => exists msg : string,
             FeatureExtractor.extract_features P n item =
               Raise (Exn "AttributeError" msg)
    end.
Proof.
  intros P n item. destruct item; try (eexists; reflexivity).
  cbv zeta.
  unfold FeatureExtractor.extract_features. cbn [dict_of bind].
  unfold FeatureExtractor._normalize_protocol, FeatureExtractor.normalize_time_of_day.
  assert (G : truthy (get d "tcp_flags" PNone) = true ->
              get d "tcp_flags" (PStr "") = get d "tcp_flags" PNone).
  { unfold get. destruct (lookup d "tcp_flags"); [reflexivity | discriminate]. }
  destruct (truthy (get d "protocol" PNone)); cbn [negb].
  - destruct (str (repr P) (get d "protocol" PNone)) as [text | e]; cbn [bind];
      [| reflexivity].
    destruct (truthy (get d "tcp_flags" PNone)).
    + rewrite (G eq_refl).
      destruct (str (repr P) (get d "tcp_flags" PNone)) as [text' | e]; cbn [bind];
        [| reflexivity].
      destruct (fromtimestamp _ _); cbn [bind]; [eexists |]; reflexivity.
    + cbn [bind]. destruct (fromtimestamp _ _); cbn [bind]; [eexists |]; reflexivity.
  - cbn [bind]. destruct (truthy (get d "tcp_flags" PNone)).
    + rewrite (G eq_refl).
      destruct (str (repr P) (get d "tcp_flags" PNone)) as [text' | e]; cbn [bind];
        [| reflexivity].
      destruct (fromtimestamp _ _); cbn [bind]; [eexists |]; reflexivity.
    + cbn [bind]. destruct (fromtimestamp _ _); cbn [bind]; [eexists |]; reflexivity.
Qed.

Lemma extract_features_skips_key (P : platform) (n : nat) (d1 d2 : dict)
      (k : string) (v : value) :
  ~ In k packet_keys ->
  FeatureExtractor.extract_features P n (PDict (d1 ++ (k, v) :: d2)%list) =
  FeatureExtractor.extract_features P n (PDict (d1 ++ d2)%list).
Proof.
  intros Hk.
  unfold FeatureExtractor.extract_features. cbn [dict_of bind]. unfold get.
  rewrite !(lookup_insert_other d1 d2 k _ v)
    by (intros ->; apply Hk; simpl; tauto).
  reflexivity.
Qed.

(** A key that is not one of the eight packet keys has no influence on
    the result, wherever it sits in the packet dict. *)
Theorem extract_features_ignores_other_keys :
  forall (P : platform) (n : nat) (d1 d2 : dict) (k : string) (v : value),
    ~ In k packet_keys ->
    FeatureExtractor.extract_features P n (PDict (d1 ++ (k, v) :: d2)%list) =
    FeatureExtractor.extract_features P n (PDict (d1 ++ d2)%list).
Proof.
  intros P n d1 d2 k v Hk. apply extract_features_skips_key. exact Hk.
Qed.

Lemma extract_features_ignores_other_keys_witness :
  FeatureExtractor.extract_features Demo.utc 0
    (PDict [("dst_port", PInt 80); ("vlan", PInt 7); ("timestamp", PInt 0)]) =
  FeatureExtractor.extract_features Demo.utc 0
    (PDict [("dst_port", PInt 80); ("timestamp", PInt 0)]).
Proof.
  apply (extract_features_ignores_other_keys Demo.utc 0
           [("dst_port", PInt 80)] [("timestamp", PInt 0)] "vlan" (PInt 7)).
  simpl. intros H.
  repeat (destruct H as [H | H]; [discriminate H |]). exact H.
Defined.

(** The clock is read only for a packet without a timestamp: when the
    key is present, the result is the same at every clock reading and
    on every platform with the same time zone and [repr]. *)
Theorem extract_features_clock_only_when_missing :
  forall (P P' : platform) (n m : nat) (d : dict) (ts : value),
    localtime P = localtime P' ->
    repr P = repr P' ->
    lookup d "timestamp" = Some ts ->
    FeatureExtractor.extract_features P n (PDict d) =
    FeatureExtractor.extract_features P' m (PDict d).
Proof.
  intros P P' n m d ts Hl Hr Hts.
  unfold FeatureExtractor.extract_features. cbn [dict_of bind].
  unfold FeatureExtractor.normalize_time_of_day, FeatureExtractor._normalize_protocol.
  assert (G : forall x : value, get d "timestamp" x = ts)
    by (intros x; unfold get; rewrite Hts; reflexivity).
  rewrite !G, Hl, Hr. reflexivity.
Qed.

Lemma extract_features_clock_only_when_missing_witness :
  FeatureExtractor.extract_features Demo.utc 0 Demo.pkt_80 =
  FeatureExtractor.extract_features Demo.utc 5 Demo.pkt_80.
Proof.
  exact (extract_features_clock_only_when_missing Demo.utc Demo.utc 0 5
           [ ("src_ip", PStr "192.0.2.7"); ("dst_ip", PStr "198.51.100.9");
             ("src_port", PInt 52344); ("dst_port", PInt 80);
             ("protocol", PStr "tcp"); ("length", PInt 100);
             ("tcp_flags", PStr "S"); ("timestamp", PInt 1700000000) ]
           (PInt 1700000000) eq_refl eq_refl eq_refl).
Defined.

(** Ports and length given as decimal text (an optional minus sign and
    digits, as [str(int)] writes them) of no more digits than the
    interpreter's conversion limit are read as the number they
    spell. *)
Theorem extract_features_reads_numeric_text :
  forall (P : platform) (n : nat) (d features : dict) (sp dp len : Z),
    (digit_chars (PacketSniffer.decimal sp) <= max_str_digits)%nat ->
    (digit_chars (PacketSniffer.decimal dp) <= max_str_digits)%nat ->
    (digit_chars (PacketSniffer.decimal len) <= max_str_digits)%nat ->
    lookup d "src_port" = Some (PStr (PacketSniffer.decimal sp)) ->
    lookup d "dst_port" = Some (PStr (PacketSniffer.decimal dp)) ->
    lookup d "length" = Some (PStr (PacketSniffer.decimal len)) ->
    FeatureExtractor.extract_features P n (PDict d) = Ok features ->
    lookup features "src_port" = Some (PInt sp) /\
    lookup features "dst_port" = Some (PInt dp) /\
    lookup features "length" = Some (PInt len).
Proof.
  intros P n d features sp dp len Lsp Ldp Llen Hsp Hdp Hlen H.
  destruct (extract_features_inv P n d features H)
    as (proto & flags & tod & _ & _ & _ & ->).
  cbn [lookup String.eqb Ascii.eqb Bool.eqb]. unfold get.
  rewrite Hsp, Hdp, Hlen.
  unfold FeatureExtractor.safe_int, int.
  rewrite (parse_int_decimal sp Lsp), (parse_int_decimal dp Ldp),
    (parse_int_decimal len Llen).
  repeat split; reflexivity.
Qed.

Lemma extract_features_reads_numeric_text_witness :
  exists features : dict,
    FeatureExtractor.extract_features Demo.utc 0
      (PDict [("src_port", PStr "52344"); ("dst_port", PStr "80");
              ("length", PStr "-1"); ("timestamp", PInt 0)]) = Ok features /\
    lookup features "dst_port" = Some (PInt 80) /\
    lookup features "length" = Some (PInt (-1)).
Proof.
  eexists. split; [vm_compute; reflexivity |].
  destruct (extract_features_reads_numeric_text Demo.utc 0
              [("src_port", PStr "52344"); ("dst_port", PStr "80");
               ("length", PStr "-1"); ("timestamp", PInt 0)] _ 52344 80 (-1)
              ltac:(vm_compute; lia) ltac:(vm_compute; lia) ltac:(vm_compute; lia)
              eq_refl eq_refl eq_refl eq_refl) as (_ & Hd & Hl).
  split; [exact Hd | exact Hl].
Defined.

(** *** From the producers to the feature record *)

Lemma or_zero (z : Z) : or_ (PInt z) (PInt 0) = PInt z.
Proof.
  unfold or_. cbn [truthy]. destruct (Z.eqb_spec z 0) as [-> | _]; reflexivity.
Qed.

Lemma flags_kept (repr : value -> result string) (flags : string) :
  (if truthy (PStr flags) then str repr (PStr flags) else Ok "") = Ok flags.
Proof.
  cbn [truthy str]. destruct (String.eqb_spec flags "") as [-> | _]; reflexivity.
Qed.

(** The fields of a scapy packet with an IP layer survive the way
    through [_scapy_to_dict] and [extract_features]: addresses,
    length and, by layer, ports, protocol tag and TCP flags; a packet
    with neither TCP nor UDP gets ports 0. *)
Theorem scapy_fields_reach_features :
  forall (P : platform) (n : nat) (now : spec_float)
         (p : PacketSniffer.scapy_packet) (src dst : value) (features : dict),
    PacketSniffer.ip_layer p = Some (src, dst) ->
    FeatureExtractor.extract_features P n (PacketSniffer._scapy_to_dict now p) =
      Ok features ->
    lookup features "src_ip" = Some src /\
    lookup features "dst_ip" = Some dst /\
    lookup features "length" = Some (PInt (PacketSniffer.wire_len p)) /\
    match PacketSniffer.tcp_layer p, PacketSniffer.udp_layer p with
    | Some (sport, dport, flags), _ =>
        lookup features "src_port" = Some (PInt sport) /\
        lookup features "dst_port" = Some (PInt dport) /\
        lookup features "protocol" = Some (PStr "TCP") /\
        lookup features "tcp_flags" = Some (PStr flags)
    | None, Some (sport, dport) =>
        lookup features "src_port" = Some (PInt sport) /\
        lookup features "dst_port" = Some (PInt dport) /\
        lookup features "protocol" = Some (PStr "UDP") /\
        lookup features "tcp_flags" = Some (PStr "")
    | None, None =>
        lookup features "src_port" = Some (PInt 0) /\
        lookup features "dst_port" = Some (PInt 0) /\
        lookup features "protocol" =
          Some (PStr (if PacketSniffer.icmp_layer p then "ICMP" else "OTHER")) /\
        lookup features "tcp_flags" = Some (PStr "")
    end.
Proof.
  intros P n now p src dst features Hip H.
  unfold PacketSniffer._scapy_to_dict, PacketSniffer._scapy_to_dict_try in H.
  rewrite Hip in H.
  destruct (PacketSniffer.tcp_layer p) as [[[sport dport] flags] |];
    [| destruct (PacketSniffer.udp_layer p) as [[sport dport] |];
       [| destruct (PacketSniffer.icmp_layer p)]];
    cbn [bind try_except fst snd] in H;
    destruct (extract_features_inv P n _ features H)
      as (proto & flags' & tod & Hp & Hf & _ & ->);
    clear H;
    cbn [lookup get String.eqb Ascii.eqb Bool.eqb] in Hp, Hf |- *;
    rewrite flags_kept in Hf; injection Hf as <-;
    vm_compute in Hp; injection Hp as <-;
    rewrite ?or_zero;
    repeat split; reflexivity.
Qed.

Lemma scapy_fields_reach_features_witness :
  exists features : dict,
    FeatureExtractor.extract_features Demo.utc 0
      (PacketSniffer._scapy_to_dict (time_time Demo.utc 0) Scenarios.udp_datagram) =
      Ok features /\
    lookup features "protocol" = Some (PStr "UDP") /\
    lookup features "dst_port" = Some (PInt 53).
Proof.
  eexists. split; [vm_compute; reflexivity |].
  destruct (scapy_fields_reach_features Demo.utc 0 (time_time Demo.utc 0)
              Scenarios.udp_datagram (PStr "192.0.2.8") (PStr "198.51.100.9") _
              eq_refl eq_refl) as (_ & _ & _ & Hl).
  cbn in Hl. destruct Hl as (_ & Hd & Hp & _).
  split; [exact Hp | exact Hd].
Defined.

(** A synthetic packet whose protocol is one of the four tags, as
    [random.choice(protocols)] draws it, comes out of
    [extract_features] with its addresses, ports, length, protocol and
    flags unchanged. *)
Theorem synthetic_fields_reach_features :
  forall (P : platform) (n : nat) (now : spec_float)
         (r : PacketSniffer.draws) (features : dict),
    In (PacketSniffer.protocol r) ["TCP"; "UDP"; "ICMP"; "OTHER"] ->
    FeatureExtractor.extract_features P n
      (PDict (PacketSniffer._make_synthetic_packet r now)) = Ok features ->
    lookup features "src_ip" =
      Some (PStr ("192.0.2." ++ PacketSniffer.decimal (PacketSniffer.src_host r))) /\
    lookup features "dst_ip" =
      Some (PStr ("198.51.100." ++ PacketSniffer.decimal (PacketSniffer.dst_host r))) /\
    lookup features "src_port" = Some (PInt (PacketSniffer.src_port r)) /\
    lookup features "dst_port" = Some (PInt (PacketSniffer.dst_port r)) /\
    lookup features "protocol" = Some (PStr (PacketSniffer.protocol r)) /\
    lookup features "length" = Some (PInt (PacketSniffer.length r)) /\
    lookup features "tcp_flags" = Some (PStr (PacketSniffer.tcp_flags r)).
Proof.
  intros P n now r features Hproto H.
  destruct (extract_features_inv P n _ features H)
    as (proto & flags & tod & Hp & Hf & _ & ->).
  clear H. unfold PacketSniffer._make_synthetic_packet in Hp, Hf |- *.
  cbn [lookup get String.eqb Ascii.eqb Bool.eqb] in Hp, Hf |- *.
  rewrite flags_kept in Hf. injection Hf as <-.
  assert (Hq : proto = PacketSniffer.protocol r).
  { simpl in Hproto.
    destruct Hproto as [E | [E | [E | [E | []]]]]; rewrite <- E in Hp |- *;
      vm_compute in Hp; injection Hp as <-; reflexivity. }
  rewrite Hq. repeat split; reflexivity.
Qed.

Lemma synthetic_fields_reach_features_witness :
  exists features : dict,
    FeatureExtractor.extract_features Demo.utc 0
      (PDict (PacketSniffer._make_synthetic_packet (Demo.no_draws 0%nat)
                                                   (time_time Demo.utc 0))) =
      Ok features /\
    lookup features "src_ip" = Some (PStr "192.0.2.1") /\
    lookup features "protocol" = Some (PStr "TCP").
Proof.
  eexists. split; [vm_compute; reflexivity |].
  destruct (synthetic_fields_reach_features Demo.utc 0 (time_time Demo.utc 0)
              (Demo.no_draws 0%nat) _ (or_introl eq_refl) eq_refl)
    as (Hs & _ & _ & _ & Hp & _).
  split; [exact Hs | exact Hp].
Defined.

(** *** What the producer puts on the channel *)

Lemma synthetic_is_packet (P : platform) (r : PacketSniffer.draws) (i : nat) :
  is_packet (time_time P) (PDict (PacketSniffer._make_synthetic_packet r (time_time P i))) /\
  is_error (PDict (PacketSniffer._make_synthetic_packet r (time_time P i))) = false.
Proof.
  split; [| reflexivity].
  exists (PacketSniffer._make_synthetic_packet r (time_time P i)), i.
  repeat split; try reflexivity; eexists; reflexivity.
Qed.

Lemma scapy_dict_is_packet (P : platform) (i : nat) (p : PacketSniffer.scapy_packet) :
  truthy (PacketSniffer._scapy_to_dict (time_time P i) p) = true ->
  is_packet (time_time P) (PacketSniffer._scapy_to_dict (time_time P i) p) /\
  is_error (PacketSniffer._scapy_to_dict (time_time P i) p) = false.
Proof.
  unfold PacketSniffer._scapy_to_dict, PacketSniffer._scapy_to_dict_try.
  destruct (PacketSniffer.ip_layer p) as [[src dst] |];
    destruct (PacketSniffer.tcp_layer p) as [[[sport dport] flags] |];
    try destruct (PacketSniffer.udp_layer p) as [[sport dport] |];
    try destruct (PacketSniffer.icmp_layer p);
    cbn [bind try_except truthy]; intros H; try discriminate H;
    (split; [| reflexivity]); eexists _, i;
    repeat split; try reflexivity; eexists; reflexivity.
Qed.

Lemma simulate_items (P : platform) (C : PacketSniffer.capture)
      (stop_at : nat -> bool) (fuel : nat) :
  forall i : nat,
    Forall (fun item => is_packet (time_time P) item /\ is_error item = false)
           (fst (PacketSniffer.simulate_loop P C stop_at fuel i)).
Proof.
  induction fuel as [| fuel IH]; intros i; [constructor |].
  simpl. destruct (stop_at i); [constructor |].
  specialize (IH (Datatypes.S i)).
  destruct (PacketSniffer.simulate_loop P C stop_at fuel (Datatypes.S i)) as [out e].
  simpl in *. constructor; [apply synthetic_is_packet | exact IH].
Qed.

Lemma replay_items (P : platform) (stop_at : nat -> bool)
      (packets : list PacketSniffer.scapy_packet) :
  forall i : nat,
    Forall (fun item => is_packet (time_time P) item /\ is_error item = false)
           (PacketSniffer.replay P stop_at i packets).
Proof.
  induction packets as [| p rest IH]; intros i; [constructor |].
  simpl. destruct (stop_at i); [constructor |].
  destruct (truthy (PacketSniffer._scapy_to_dict (time_time P i) p)) eqn:T; simpl.
  - constructor; [apply scapy_dict_is_packet; exact T | apply IH].
  - apply IH.
Qed.

Lemma callbacks_length (P : platform) (packets : list PacketSniffer.scapy_packet) :
  forall i : nat,
    List.length (PacketSniffer.callbacks P i packets) =
    List.length (filter PacketSniffer.has_ip packets).
Proof.
  induction packets as [| p rest IH]; intros i; [reflexivity |].
  cbn [PacketSniffer.callbacks filter]. rewrite length_app, IH.
  unfold PacketSniffer._callback. rewrite scapy_to_dict_truthy.
  destruct (PacketSniffer.has_ip p); reflexivity.
Qed.

Lemma callbacks_items (P : platform) (packets : list PacketSniffer.scapy_packet) :
  forall i : nat,
    Forall (fun item => is_packet (time_time P) item /\ is_error item = false)
           (PacketSniffer.callbacks P i packets).
Proof.
  induction packets as [| p rest IH]; intros i; [constructor |].
  simpl. unfold PacketSniffer._callback.
  destruct (truthy (PacketSniffer._scapy_to_dict (time_time P i) p)) eqn:T; simpl.
  - constructor; [apply scapy_dict_is_packet; exact T | apply IH].
  - apply IH.
Qed.

(** On a packet of a producer nothing but the local-time conversion
    of its timestamp can make [extract_features] raise. *)
Lemma packet_extractable (clock : nat -> spec_float) (item : value) :
  is_packet clock item ->
  exists i : nat,
    forall (P : platform) (n : nat),
      is_ok (FeatureExtractor.extract_features P n item) =
      is_ok (localtime P (NFloat (clock i))).
Proof.
  intros (d & i & -> & _ & Hts & [proto Hproto] & [flags Hflags]).
  exists i. intros P n.
  unfold FeatureExtractor.extract_features. cbn [dict_of bind].
  unfold FeatureExtractor._normalize_protocol, FeatureExtractor.normalize_time_of_day, get.
  rewrite Hproto, Hflags, Hts. cbn [str fromtimestamp].
  destruct (truthy (PStr proto)); cbn [negb bind];
    destruct (truthy (PStr flags)); cbn [bind];
    destruct (localtime P (NFloat (clock i))); reflexivity.
Qed.

(** The two shapes of a producer run: a single error signal followed by
    a return, or packets only. *)
Lemma start_sniff_cases (P : platform) (C : PacketSniffer.capture)
      (stop_at : nat -> bool) (fuel : nat) (mode : string) (iface pcap : value) :
  (exists err : value,
     PacketSniffer.start_sniff P C stop_at fuel mode iface pcap =
       ([err], PacketSniffer.Returned) /\
     is_error err = true) \/
  Forall (fun item => is_packet (time_time P) item /\ is_error item = false)
         (fst (PacketSniffer.start_sniff P C stop_at fuel mode iface pcap)).
Proof.
  unfold PacketSniffer.start_sniff.
  destruct (String.eqb mode "simulate"); [right; apply simulate_items |].
  destruct (PacketSniffer.scapy_import C) as [u | e];
    [| left; eexists; split; reflexivity].
  destruct (String.eqb mode "pcap").
  - destruct (negb (truthy pcap)); [left; eexists; split; reflexivity |].
    destruct (PacketSniffer.rdpcap C pcap) as [packets | e];
      [right; apply replay_items | left; eexists; split; reflexivity].
  - destruct (String.eqb mode "live"); [| right; constructor].
    destruct (negb (truthy iface)); [left; eexists; split; reflexivity |].
    destruct (PacketSniffer.sniff C iface) as [packets failure].
    right. apply callbacks_items.
Qed.

(** Every item a producer puts on the channel, in any mode, is either
    an error signal the engine recognises or a packet dict with the
    eight packet keys, stamped with a reading of the clock, never [None] and never
    both.  An error signal is never mixed with anything else: it is
    the only item of its run, and the producer returns after it. *)
Theorem start_sniff_items_classified :
  forall (P : platform) (C : PacketSniffer.capture) (stop_at : nat -> bool)
         (fuel : nat) (mode : string) (iface pcap : value) (item : value),
    let out := PacketSniffer.start_sniff P C stop_at fuel mode iface pcap in
    In item (fst out) ->
    item <> PNone /\
    (is_error item = true /\ out = ([item], PacketSniffer.Returned) \/
     is_error item = false /\ is_packet (time_time P) item).
Proof.
  intros P C stop_at fuel mode iface pcap item out Hin. subst out.
  destruct (start_sniff_cases P C stop_at fuel mode iface pcap)
    as [(err & Hrun & Herr) | Hall].
  - rewrite Hrun in Hin |- *. destruct Hin as [<- | []].
    split; [intros ->; discriminate Herr |]. left. split; [exact Herr | reflexivity].
  - rewrite Forall_forall in Hall. destruct (Hall item Hin) as [Hp He].
    split; [intros ->; destruct Hp as (d & i & Hd & _); discriminate Hd |].
    right. split; assumption.
Qed.

Lemma start_sniff_items_classified_witness :
  is_error (PDict [("__error__", PStr "scapy not available: No module named 'scapy'")]) = true /\
  PacketSniffer.start_sniff Demo.utc Scenarios.no_scapy Demo.never 0 "live"
                            (PStr "eth0") PNone =
    ([PDict [("__error__", PStr "scapy not available: No module named 'scapy'")]],
     PacketSniffer.Returned).
Proof.
  destruct (start_sniff_items_classified Demo.utc Scenarios.no_scapy Demo.never 0 "live"
              (PStr "eth0") PNone
              (PDict [("__error__", PStr "scapy not available: No module named 'scapy'")])
              (or_introl eq_refl)) as [_ [[He Hrun] | [He _]]].
  - split; [exact He | exact Hrun].
  - discriminate He.
Defined.

(** For a packet of any producer, [extract_features] on the
    consumer's side returns exactly when the consumer's local-time
    conversion accepts the clock reading the producer stamped on it:
    the [TypeError] of a non-numeric timestamp cannot come from the
    repository's own producers. *)
Theorem start_sniff_items_extractable :
  forall (P P' : platform) (C : PacketSniffer.capture) (stop_at : nat -> bool)
         (fuel : nat) (mode : string) (iface pcap : value) (item : value),
    In item (fst (PacketSniffer.start_sniff P C stop_at fuel mode iface pcap)) ->
    is_error item = true \/
    exists i : nat,
      forall n : nat,
        is_ok (FeatureExtractor.extract_features P' n item) =
        is_ok (localtime P' (NFloat (time_time P i))).
Proof.
  intros P P' C stop_at fuel mode iface pcap item Hin.
  destruct (start_sniff_cases P C stop_at fuel mode iface pcap)
    as [(err & Hrun & Herr) | Hall].
  - rewrite Hrun in Hin. destruct Hin as [<- | []]. left. exact Herr.
  - rewrite Forall_forall in Hall. destruct (Hall item Hin) as [Hp _].
    right. destruct (packet_extractable (time_time P) item Hp) as [i Hi].
    exists i. intros n. apply Hi.
Qed.

Lemma start_sniff_items_extractable_witness :
  exists i : nat,
    forall n : nat,
      is_ok (FeatureExtractor.extract_features Demo.utc n
               (PacketSniffer._scapy_to_dict (time_time Demo.utc 0) Demo.tcp_segment)) =
      is_ok (localtime Demo.utc (NFloat (time_time Demo.utc i))).
Proof.
  destruct (start_sniff_items_extractable Demo.utc Demo.utc Scenarios.three_records
              Demo.never 0 "pcap" PNone (PStr "capture.pcap")
              (PacketSniffer._scapy_to_dict (time_time Demo.utc 0) Demo.tcp_segment)
              (or_introl eq_refl)) as [He | H].
  - discriminate He.
  - exact H.
Defined.

(** In simulate mode the producer puts one synthetic packet per poll
    of the stop signal that finds it clear, and returns at the first
    poll that finds it set. *)
Theorem simulate_until_stop :
  forall (P : platform) (C : PacketSniffer.capture) (stop_at : nat -> bool)
         (iface pcap : value) (k fuel : nat),
    (forall i : nat, (i < k)%nat -> stop_at i = false) ->
    stop_at k = true ->
    (k < fuel)%nat ->
    PacketSniffer.start_sniff P C stop_at fuel "simulate" iface pcap =
      (map (fun i => PDict (PacketSniffer._make_synthetic_packet
                              (PacketSniffer.random C i) (time_time P i)))
           (seq 0 k),
       PacketSniffer.Returned).
Proof.
  intros P C stop_at iface pcap k fuel Hclear Hset Hfuel.
  unfold PacketSniffer.start_sniff. cbn [String.eqb Ascii.eqb Bool.eqb].
  assert (G : forall (j i fuel' : nat),
             (i + j = k)%nat -> (j < fuel')%nat ->
             PacketSniffer.simulate_loop P C stop_at fuel' i =
               (map (fun i => PDict (PacketSniffer._make_synthetic_packet
                                       (PacketSniffer.random C i) (time_time P i)))
                    (seq i j),
                PacketSniffer.Returned)).
  { induction j as [| j IH]; intros i fuel' Hk Hf;
      (destruct fuel' as [| fuel']; [lia |]); simpl.
    - replace i with k by lia. rewrite Hset. reflexivity.
    - rewrite Hclear by lia. rewrite (IH (Datatypes.S i) fuel') by lia. reflexivity. }
  apply G; lia.
Qed.

Lemma simulate_until_stop_witness :
  List.length (fst (PacketSniffer.start_sniff Demo.utc Demo.missing_file Scenarios.stop_at_2
                      5 "simulate" PNone PNone)) = 2%nat /\
  snd (PacketSniffer.start_sniff Demo.utc Demo.missing_file Scenarios.stop_at_2
         5 "simulate" PNone PNone) = PacketSniffer.Returned.
Proof.
  rewrite (simulate_until_stop Demo.utc Demo.missing_file Scenarios.stop_at_2
             PNone PNone 2 5).
  - split; reflexivity.
  - intros i Hi. destruct i as [| [| i]]; [reflexivity | reflexivity | lia].
  - reflexivity.
  - lia.
Defined.

(** Simulate mode does not touch the capture library: its output
    depends on the random draws, the clock and the stop signal only,
    not on whether scapy can be imported nor on the interface or file
    arguments. *)
Theorem simulate_needs_no_scapy :
  forall (P : platform) (C C' : PacketSniffer.capture) (stop_at : nat -> bool)
         (fuel : nat) (iface pcap iface' pcap' : value),
    (forall i : nat, PacketSniffer.random C i = PacketSniffer.random C' i) ->
    PacketSniffer.start_sniff P C stop_at fuel "simulate" iface pcap =
    PacketSniffer.start_sniff P C' stop_at fuel "simulate" iface' pcap'.
Proof.
  intros P C C' stop_at fuel iface pcap iface' pcap' Hr.
  unfold PacketSniffer.start_sniff. cbn [String.eqb Ascii.eqb Bool.eqb].
  generalize 0%nat. induction fuel as [| fuel IH]; intros i; [reflexivity |].
  simpl. rewrite Hr, IH. reflexivity.
Qed.

Lemma simulate_needs_no_scapy_witness :
  PacketSniffer.start_sniff Demo.utc Demo.missing_file Scenarios.stop_at_2 5
                            "simulate" PNone PNone =
  PacketSniffer.start_sniff Demo.utc Scenarios.no_scapy Scenarios.stop_at_2 5
                            "simulate" (PStr "eth0") (PStr "capture.pcap").
Proof.
  apply simulate_needs_no_scapy. intros i. reflexivity.
Defined.

(** Outside simulate mode a failed scapy import is reported, whatever
    the mode string and the arguments: exactly one error signal, which
    carries the exception's message, and the producer returns. *)
Theorem scapy_import_failure_reported :
  forall (P : platform) (C : PacketSniffer.capture) (stop_at : nat -> bool)
         (fuel : nat) (mode : string) (iface pcap : value) (e : exn),
    mode <> "simulate" ->
    PacketSniffer.scapy_import C = Raise e ->
    PacketSniffer.start_sniff P C stop_at fuel mode iface pcap =
      ([PDict [("__error__", PStr ("scapy not available: " ++ exn_msg e))]],
       PacketSniffer.Returned).
Proof.
  intros P C stop_at fuel mode iface pcap e Hmode Himp.
  unfold PacketSniffer.start_sniff.
  destruct (String.eqb_spec mode "simulate"); [contradiction |].
  rewrite Himp. reflexivity.
Qed.

Lemma scapy_import_failure_reported_witness :
  PacketSniffer.start_sniff Demo.utc Scenarios.no_scapy Demo.never 0 "pcap"
                            PNone (PStr "capture.pcap") =
    ([PDict [("__error__", PStr "scapy not available: No module named 'scapy'")]],
     PacketSniffer.Returned).
Proof.
  apply (scapy_import_failure_reported Demo.utc Scenarios.no_scapy Demo.never 0 "pcap"
           PNone (PStr "capture.pcap")
           (Exn "ModuleNotFoundError" "No module named 'scapy'")).
  - discriminate.
  - reflexivity.
Defined.

(** Live mode reports a missing interface name, but not a failure of
    the capture itself: when [sniff] ends with an exception, the
    channel holds what the callback put for the packets captured
    before it, one dict per packet with an IP layer and in capture
    order, no error signal is among them or after them, and the
    exception ends the producer thread. *)
Theorem live_capture_failure_not_reported :
  forall (P : platform) (C : PacketSniffer.capture) (stop_at : nat -> bool)
         (fuel : nat) (iface pcap : value)
         (packets : list PacketSniffer.scapy_packet) (e : exn),
    PacketSniffer.scapy_import C = Ok tt ->
    (truthy iface = false ->
     PacketSniffer.start_sniff P C stop_at fuel "live" iface pcap =
       ([PDict [("__error__", PStr "live mode requires iface")]],
        PacketSniffer.Returned)) /\
    (truthy iface = true ->
     PacketSniffer.sniff C iface = (packets, Some e) ->
     let out := PacketSniffer.start_sniff P C stop_at fuel "live" iface pcap in
     snd out = PacketSniffer.Died e /\
     fst out = PacketSniffer.callbacks P 0 packets /\
     List.length (fst out) = List.length (filter PacketSniffer.has_ip packets) /\
     Forall (fun item => is_error item = false) (fst out)).
Proof.
  intros P C stop_at fuel iface pcap packets e Himp.
  unfold PacketSniffer.start_sniff. cbn [String.eqb Ascii.eqb Bool.eqb].
  rewrite Himp. split.
  - intros ->. reflexivity.
  - intros -> ->. cbn [negb fst snd].
    split; [reflexivity |]. split; [reflexivity |]. split.
    + apply callbacks_length.
    + eapply Forall_impl; [| apply callbacks_items].
      intros item [_ He]. exact He.
Qed.

Lemma live_capture_failure_not_reported_witness :
  snd (PacketSniffer.start_sniff Demo.utc Scenarios.three_records Demo.never 0 "live"
                                 (PStr "eth0") PNone) =
    PacketSniffer.Died (Exn "OSError" "Network is down") /\
  List.length (fst (PacketSniffer.start_sniff Demo.utc Scenarios.three_records
                                              Demo.never 0 "live" (PStr "eth0") PNone)) =
    2%nat.
Proof.
  destruct (live_capture_failure_not_reported Demo.utc Scenarios.three_records Demo.never 0
              (PStr "eth0") PNone
              [Demo.tcp_segment; Demo.arp_frame; Scenarios.udp_datagram]
              (Exn "OSError" "Network is down") eq_refl) as [_ H].
  destruct (H eq_refl eq_refl) as (Hend & _ & Hlen & _).
  split; [exact Hend | exact Hlen].
Defined.

(** The stop signal only cuts a replay short: what is put before the
    signal is seen is a prefix of what an undisturbed replay puts. *)
Theorem replay_stop_gives_prefix :
  forall (P : platform) (stop_at : nat -> bool)
         (packets : list PacketSniffer.scapy_packet) (i : nat),
    exists rest : list value,
      PacketSniffer.replay P (fun _ => false) i packets =
        (PacketSniffer.replay P stop_at i packets ++ rest)%list.
Proof.
  intros P stop_at packets. induction packets as [| p packets IH]; intros i.
  - exists []. reflexivity.
  - cbn [PacketSniffer.replay]. destruct (stop_at i).
    + eexists. reflexivity.
    + destruct (IH (Datatypes.S i)) as [rest Hrest].
      exists rest. rewrite Hrest, app_assoc. reflexivity.
Qed.

(** *** Scoring *)

Lemma lookup_set_other (d : dict) (k k' : string) (v : value) :
  k <> k' -> lookup (set d k v) k' = lookup d k'.
Proof.
  intros Hne. induction d as [| [k0 v0] d IH]; simpl.
  - destruct (String.eqb_spec k k'); [contradiction | reflexivity].
  - destruct (String.eqb_spec k0 k) as [-> | Hk]; simpl.
    + destruct (String.eqb_spec k k'); [contradiction | reflexivity].
    + rewrite IH. reflexivity.
Qed.

Lemma lookup_set_same (d : dict) (k : string) (v : value) :
  lookup (set d k v) k = Some v.
Proof.
  induction d as [| [k0 v0] d IH]; simpl.
  - rewrite String.eqb_refl. reflexivity.
  - destruct (String.eqb_spec k0 k) as [-> | Hk]; simpl.
    + rewrite String.eqb_refl. reflexivity.
    + destruct (String.eqb_spec k0 k); [contradiction | exact IH].
Qed.

Lemma predict_proba_agree (pipeline : dict -> result spec_float)
      (features features' : dict) :
  (forall k : string,
     In k (LoadModel.numeric_features ++ LoadModel.categorical_features) ->
     lookup features k = lookup features' k) ->
  LoadModel.predict_proba pipeline features =
  LoadModel.predict_proba pipeline features'.
Proof.
  intros H. unfold LoadModel.predict_proba.
  f_equal. apply map_ext_in. intros k Hk. unfold get. rewrite (H k Hk). reflexivity.
Qed.

(** [Detector.predict_proba] hands the pipeline the six scoring fields
    and nothing else: two feature records that agree on them get the
    same answer, so setting any other key (an address, say) does not
    change the score. *)
Theorem predict_proba_reads_scoring_fields_only :
  forall (pipeline : dict -> result spec_float) (features features' : dict),
    (forall k : string,
       In k (LoadModel.numeric_features ++ LoadModel.categorical_features) ->
       lookup features k = lookup features' k) ->
    LoadModel.predict_proba pipeline features =
    LoadModel.predict_proba pipeline features'.
Proof.
  intros pipeline features features' H. apply predict_proba_agree. exact H.
Qed.

Lemma predict_proba_reads_scoring_fields_only_witness :
  LoadModel.predict_proba Demo.port_4444_pipeline
    [("dst_port", PInt 4444); ("src_ip", PStr "192.0.2.7")] =
  LoadModel.predict_proba Demo.port_4444_pipeline
    [("src_ip", PStr "203.0.113.1"); ("dst_ip", PNone); ("dst_port", PInt 4444)].
Proof.
  apply predict_proba_reads_scoring_fields_only.
  intros k Hk. simpl in Hk.
  repeat (destruct Hk as [<- | Hk]; [reflexivity |]). destruct Hk.
Defined.

(** Two packets that differ only in their addresses get the same
    score: the addresses pass through extraction to the alert and to
    mitigation, but never reach the classifier. *)
Theorem score_ignores_addresses :
  forall (P : platform) (pipeline : dict -> result spec_float) (n : nat)
         (d d' features features' : dict),
    (forall k : string, k <> "src_ip" -> k <> "dst_ip" -> lookup d k = lookup d' k) ->
    FeatureExtractor.extract_features P n (PDict d) = Ok features ->
    FeatureExtractor.extract_features P n (PDict d') = Ok features' ->
    LoadModel.predict_proba pipeline features =
    LoadModel.predict_proba pipeline features'.
Proof.
  intros P pipeline n d d' features features' Hsame H H'.
  destruct (extract_features_inv P n d features H)
    as (proto & flags & tod & Hp & Hf & Htod & ->).
  destruct (extract_features_inv P n d' features' H')
    as (proto' & flags' & tod' & Hp' & Hf' & Htod' & ->).
  assert (G : forall (k : string) (x : value),
             k <> "src_ip" -> k <> "dst_ip" -> get d k x = get d' k x)
    by (intros k x H1 H2; unfold get; rewrite (Hsame k H1 H2); reflexivity).
  rewrite G in Htod by discriminate. rewrite Htod' in Htod.
  injection Htod as ->.
  rewrite G in Hp by discriminate. rewrite Hp' in Hp. injection Hp as ->.
  rewrite !(G "tcp_flags") in Hf by discriminate. rewrite Hf' in Hf.
  injection Hf as ->.
  apply predict_proba_agree.
  intros k Hk. simpl in Hk.
  repeat (destruct Hk as [<- | Hk];
          [cbn [lookup String.eqb Ascii.eqb Bool.eqb];
           rewrite ?(G "src_port"), ?(G "dst_port"), ?(G "length"),
                   ?(G "protocol"), ?(G "tcp_flags") by discriminate;
           reflexivity |]).
  destruct Hk.
Qed.

Lemma score_ignores_addresses_witness :
  exists features features' : dict,
    FeatureExtractor.extract_features Demo.utc 0
      (PDict [("src_ip", PStr "192.0.2.7"); ("dst_port", PInt 4444)]) = Ok features /\
    FeatureExtractor.extract_features Demo.utc 0
      (PDict [("src_ip", PStr "203.0.113.1"); ("dst_port", PInt 4444)]) = Ok features' /\
    LoadModel.predict_proba Demo.port_4444_pipeline features =
    LoadModel.predict_proba Demo.port_4444_pipeline features'.
Proof.
  eexists. eexists.
  split; [vm_compute; reflexivity |]. split; [vm_compute; reflexivity |].
  apply (score_ignores_addresses Demo.utc Demo.port_4444_pipeline 0
           [("src_ip", PStr "192.0.2.7"); ("dst_port", PInt 4444)]
           [("src_ip", PStr "203.0.113.1"); ("dst_port", PInt 4444)]).
  - intros k H1 H2. cbn [lookup].
    destruct (String.eqb_spec "src_ip" k) as [E | _]; [congruence | reflexivity].
  - reflexivity.
  - reflexivity.
Defined.

(** *** The loop body on unusual items and failing services *)

(** A [None] item is skipped without a trace; any other item that is
    not a dict ends the consumer thread with the [AttributeError] of
    [pkt.get], nothing having been logged. *)
Theorem non_dict_items :
  forall (P : platform) (S : services) (self : engine)
         (st : state) (item : value) (q' : PyQueue.t),
    pc st = InGet ->
    PyQueue.get (in_q st) = Some (item, q') ->
    match item with
    | PDict _ => True
    | PNone =>
        trace (step P S self st) = trace st /\
        pc (step P S self st) = LoopHead /\
        received (step P S self st) = Datatypes.S (received st)
    | _ =>
        trace (step P S self st) = trace st /\
        exists msg : string,
          pc (step P S self st) = Crashed (Exn "AttributeError" msg)
    end.
Proof.
  intros P S self st item q' Hpc Hget.
  destruct (step_receive P S self st item q' Hpc Hget) as (Ht & Hc & _ & _).
  destruct item; try exact I;
    cbn in Ht, Hc; rewrite app_nil_r in Ht;
    (split; [exact Ht |]); try (eexists; exact Hc).
  split; [exact Hc |]. unfold step. rewrite Hpc, Hget. reflexivity.
Qed.

Lemma non_dict_items_witness :
  exists msg : string,
    pc (step Demo.utc Demo.scenario_A Demo.engine_075
             (Demo.waiting [PStr "not a packet"; Demo.pkt_4444] false)) =
      Crashed (Exn "AttributeError" msg).
Proof.
  exact (proj2 (non_dict_items Demo.utc Demo.scenario_A Demo.engine_075
                  (Demo.waiting [PStr "not a packet"; Demo.pkt_4444] false)
                  (PStr "not a packet")
                  {| PyQueue.maxsize := 0; PyQueue.items := [Demo.pkt_4444] |}
                  eq_refl eq_refl)).
Defined.

(** An ["__error__"] entry whose value is falsy (an empty message,
    [None]) does not make an item an error signal: the item is
    handled as the packet it would be without the entry. *)
Theorem falsy_error_entry_is_no_signal :
  forall (P : platform) (S : services) (self : engine)
         (n : nat) (d : dict) (v : value),
    truthy v = false ->
    is_error (PDict d) = false ->
    handle P S self n (PDict (("__error__", v) :: d)) = handle P S self n (PDict d).
Proof.
  intros P S self n d v Hv Hd.
  assert (He : is_error (PDict (("__error__", v) :: d)) = false) by exact Hv.
  assert (Hk : ~ In "__error__" packet_keys)
    by (simpl; intros H; repeat (destruct H as [H | H]; [discriminate H |]); exact H).
  pose proof (extract_features_skips_key P n [] d "__error__" v Hk) as E.
  cbn [app] in E.
  unfold handle. rewrite He, Hd, E. reflexivity.
Qed.

Lemma falsy_error_entry_is_no_signal_witness :
  handle Demo.utc Demo.scenario_A Demo.engine_075 0
         (PDict [("__error__", PStr ""); ("dst_port", PInt 4444)]) =
  handle Demo.utc Demo.scenario_A Demo.engine_075 0
         (PDict [("dst_port", PInt 4444)]).
Proof.
  exact (falsy_error_entry_is_no_signal Demo.utc Demo.scenario_A Demo.engine_075 0
           [("dst_port", PInt 4444)] (PStr "") eq_refl eq_refl).
Defined.

(** When a mitigation helper raises for an observation scored at or
    above the threshold, the exception ends the consumer thread and no
    alert line is written.  If it is [apply_block] that raises, the
    address has already been handed to [add_to_blocklist]; if it is
    [add_to_blocklist], [apply_block] is not called. *)
Theorem mitigation_failure_loses_alert :
  forall (P : platform) (S : services) (self : engine)
         (st : state) (pkt : value) (q' : PyQueue.t)
         (features : dict) (p : spec_float) (e : exn),
    pc st = InGet ->
    PyQueue.get (in_q st) = Some (pkt, q') ->
    is_error pkt = false ->
    FeatureExtractor.extract_features P (received st) pkt = Ok features ->
    LoadModel.predict_proba (pipeline S) features = Ok p ->
    fge p (threshold self) = true ->
    let st' := step P S self st in
    let ip := mitigation_target features in
    (add_to_blocklist S ip = Raise e ->
     trace st' = (trace st ++ [Predict features; AddToBlocklist ip])%list /\
     pc st' = Crashed e) /\
    (add_to_blocklist S ip = Ok tt ->
     apply_block S ip (mitigation_mode self) = Raise e ->
     trace st' =
       (trace st ++ [Predict features; AddToBlocklist ip;
                     ApplyBlock ip (mitigation_mode self)])%list /\
     alerts_log (trace st') = alerts_log (trace st) /\
     pc st' = Crashed e).
Proof.
  intros P S self st pkt q' features p e Hpc Hget Herr Hf Hp Hge st' ip.
  destruct (step_receive P S self st pkt q' Hpc Hget) as (Ht & Hc & _ & _).
  rewrite (handle_scored P S self _ _ _ _ Herr Hf Hp) in Ht, Hc.
  unfold call, bind_io at 1 in Ht. unfold call, bind_io at 1 in Hc.
  rewrite Hge, handle_mitigation_calls in Ht, Hc.
  subst st' ip. split.
  - intros Hadd. rewrite Hadd in Ht, Hc. cbn in Ht, Hc. split; assumption.
  - intros Hadd Happly. rewrite Hadd, Happly in Ht, Hc. cbn in Ht, Hc.
    rewrite Ht, alerts_log_app. cbn. rewrite app_nil_r.
    repeat split; try reflexivity; assumption.
Qed.

Lemma mitigation_failure_loses_alert_witness :
  let st' := step Demo.utc Scenarios.unreachable_backend Demo.engine_075
                  (Demo.waiting [Demo.pkt_4444] false) in
  filter is_mitigation (trace st') =
    [AddToBlocklist (PStr "192.0.2.7"); ApplyBlock (PStr "192.0.2.7") "dry-run"] /\
  alerts_log (trace st') = [] /\
  pc st' = Crashed (Exn "MitigationError" "backend unreachable").
Proof.
  destruct (mitigation_failure_loses_alert Demo.utc Scenarios.unreachable_backend
              Demo.engine_075 (Demo.waiting [Demo.pkt_4444] false) Demo.pkt_4444
              {| PyQueue.maxsize := 0; PyQueue.items := [] |} _ Demo.p09
              (Exn "MitigationError" "backend unreachable")
              eq_refl eq_refl eq_refl eq_refl eq_refl eq_refl) as [_ H].
  destruct (H eq_refl eq_refl) as (Ht & Hlog & Hc).
  split; [rewrite Ht; reflexivity | split; [exact Hlog | exact Hc]].
Defined.

Lemma SFcompare_refl (f : spec_float) :
  f <> S754_nan -> SFcompare f f = Some Eq.
Proof.
  destruct f as [s | s | | s m e]; intros H; try congruence;
    try (destruct s; reflexivity).
  simpl. rewrite Z.compare_refl.
  change (Pos.compare_cont Eq m m) with (m ?= m)%positive.
  rewrite Pos.compare_refl. destruct s; reflexivity.
Qed.

(** The comparison with the threshold is inclusive, and a NaN never
    alerts: a score equal to the threshold starts mitigation, while a
    NaN score, or any score against a NaN threshold, leaves the
    classifier call as the only thing done. *)
Theorem threshold_inclusive_nan_silent :
  forall (P : platform) (S : services) (self : engine)
         (n : nat) (pkt : value) (features : dict) (p : spec_float),
    is_error pkt = false ->
    FeatureExtractor.extract_features P n pkt = Ok features ->
    LoadModel.predict_proba (pipeline S) features = Ok p ->
    (p = S754_nan \/ threshold self = S754_nan ->
     handle P S self n pkt = ([Predict features], Ok tt)) /\
    (p = threshold self -> p <> S754_nan ->
     exists (evs : list event) (r : result unit),
       handle P S self n pkt =
         (Predict features :: AddToBlocklist (mitigation_target features) :: evs, r)).
Proof.
  intros P S self n pkt features p Herr Hf Hp.
  rewrite (handle_scored P S self _ _ _ _ Herr Hf Hp).
  unfold call, bind_io at 1. split.
  - intros Hnan.
    assert (Hge : fge p (threshold self) = false).
    { unfold fge, SFleb. destruct Hnan as [-> | ->].
      - destruct (threshold self); reflexivity.
      - reflexivity. }
    rewrite Hge. reflexivity.
  - intros Heq Hnn.
    assert (Hge : fge p (threshold self) = true).
    { unfold fge, SFleb. rewrite <- Heq, (SFcompare_refl p Hnn). reflexivity. }
    destruct (add_to_blocklist S (mitigation_target features)) as [u | e] eqn:Ha;
      [destruct (apply_block S (mitigation_target features) (mitigation_mode self))
         as [cmd | e] eqn:Hb |];
      eexists _, _; unfold call, bind_io at 1;
      rewrite Hge, handle_mitigation_calls, Ha, ?Hb; cbn; reflexivity.
Qed.

Lemma threshold_inclusive_nan_silent_witness :
  (exists (evs : list event) (r : result unit),
     handle Demo.utc Demo.scenario_A Scenarios.engine_09 0 Demo.pkt_4444 =
       (Predict (match FeatureExtractor.extract_features Demo.utc 0 Demo.pkt_4444 with
                 | Ok f => f
                 | Raise _ => []
                 end)
          :: AddToBlocklist (PStr "192.0.2.7") :: evs, r)) /\
  alerts_log (fst (handle Demo.utc Demo.scenario_A Scenarios.engine_nan 0 Demo.pkt_4444)) = [].
Proof.
  split.
  - destruct (threshold_inclusive_nan_silent Demo.utc Demo.scenario_A Scenarios.engine_09
                0 Demo.pkt_4444 _ Demo.p09 eq_refl eq_refl eq_refl) as [_ H].
    exact (H eq_refl ltac:(discriminate)).
  - destruct (threshold_inclusive_nan_silent Demo.utc Demo.scenario_A Scenarios.engine_nan
                0 Demo.pkt_4444 _ Demo.p09 eq_refl eq_refl eq_refl) as [H _].
    rewrite (H (or_intror eq_refl)). reflexivity.
Defined.

(** *** Whole runs of the consumer *)

Lemma run_two_more (P : platform) (S : services) (self : engine)
      (n : nat) (st : state) :
  run P S self (Datatypes.S (Datatypes.S n)) st =
  run P S self n (step P S self (step P S self st)).
Proof. reflexivity. Qed.

(** Items are handled strictly in the order they were queued, one at a
    time: a consumer at the head of its loop, not stopped, on a queue
    holding [xs] does in two moves per item exactly what handling
    [xs] from left to right does, and stops short at the first item
    whose handling raises. *)
Theorem run_handles_queue_in_order :
  forall (P : platform) (S : services) (self : engine)
         (xs : list value) (st : state),
    pc st = LoopHead ->
    stop_event st = false ->
    PyQueue.items (in_q st) = xs ->
    let st' := run P S self (2 * List.length xs) st in
    let out := drain P S self (received st) xs in
    trace st' = (trace st ++ fst out)%list /\
    pc st' = match snd out with None => LoopHead | Some e => Crashed e end /\
    (snd out = None ->
     PyQueue.items (in_q st') = [] /\
     received st' = (received st + List.length xs)%nat).
Proof.
  intros P S self xs. induction xs as [| x rest IH]; intros st Hpc Hstop Hq.
  - cbn. rewrite app_nil_r. repeat split; try assumption. lia.
  - cbn zeta.
    replace (2 * List.length (x :: rest))%nat
      with (Datatypes.S (Datatypes.S (2 * List.length rest))) by (cbn; lia).
    rewrite run_two_more.
    assert (H1 : step P S self st =
                 {| in_q := in_q st; stop_event := stop_event st; pc := InGet;
                    trace := trace st; received := received st;
                    timeouts := timeouts st |})
      by (unfold step; rewrite Hpc, Hstop; reflexivity).
    rewrite H1.
    set (st1 := {| in_q := in_q st; stop_event := stop_event st; pc := InGet;
                   trace := trace st; received := received st;
                   timeouts := timeouts st |}).
    assert (Hget : PyQueue.get (in_q st1) =
                   Some (x, {| PyQueue.maxsize := PyQueue.maxsize (in_q st);
                               PyQueue.items := rest |}))
      by (unfold PyQueue.get; cbn [in_q st1]; rewrite Hq; reflexivity).
    destruct (step_receive P S self st1 x _ eq_refl Hget) as (Ht & Hc & Hin & Hs).
    cbn [trace received stop_event st1] in Ht, Hc, Hs.
    cbn [drain].
    destruct (handle P S self (received st) x) as [evs [u | e]] eqn:Hh;
      cbn [fst snd] in Ht, Hc.
    + assert (Hr : received (step P S self st1) = Datatypes.S (received st))
        by (unfold step; cbn [pc st1]; rewrite Hget; cbn [received st1];
            rewrite Hh; reflexivity).
      specialize (IH (step P S self st1) Hc (eq_trans Hs Hstop)
                     ltac:(rewrite Hin; reflexivity)).
      cbn zeta in IH. rewrite Hr, Ht in IH.
      destruct (drain P S self (Datatypes.S (received st)) rest) as [evs' r] eqn:Hd.
      cbn [fst snd] in IH |- *.
      destruct IH as (IHt & IHc & IHq).
      rewrite IHt, IHc, <- app_assoc.
      repeat split; try reflexivity;
        destruct (IHq H) as [Hq' Hr']; [exact Hq' | rewrite Hr'; cbn; lia].
    + cbn [fst snd].
      rewrite run_not_running by (rewrite Hc; reflexivity).
      rewrite Ht, Hc. repeat split; try reflexivity; discriminate.
Qed.

Lemma run_handles_queue_in_order_witness :
  let st' := run Demo.utc Demo.scenario_A Demo.engine_075 6
                 (Scenarios.at_head [Demo.pkt_80; Demo.pkt_error; Demo.pkt_4444]) in
  List.length (alerts_log (trace st')) = 2%nat /\
  pc st' = LoopHead /\
  received st' = 3%nat.
Proof.
  destruct (run_handles_queue_in_order Demo.utc Demo.scenario_A Demo.engine_075
              [Demo.pkt_80; Demo.pkt_error; Demo.pkt_4444]
              (Scenarios.at_head [Demo.pkt_80; Demo.pkt_error; Demo.pkt_4444])
              eq_refl eq_refl eq_refl) as (Ht & Hc & Hr).
  cbn [List.length Nat.mul Nat.add] in Ht, Hc, Hr.
  split; [rewrite Ht; reflexivity |].
  split; [exact Hc |].
  exact (proj2 (Hr eq_refl)).
Defined.

(** The calls one iteration can make. *)
Lemma handle_shape (P : platform) (S : services) (self : engine)
      (n : nat) (pkt : value) :
  let t := fst (handle P S self n pkt) in
  t = [] \/
  (exists (s : string) (m : value),
     t = [LogAlert s [("type", PStr "sniffer_error"); ("msg", m)]]) \/
  (exists f : dict, t = [Predict f]) \/
  (exists (f : dict) (ip : value), t = [Predict f; AddToBlocklist ip]) \/
  (exists (f : dict) (ip : value),
     t = [Predict f; AddToBlocklist ip; ApplyBlock ip (mitigation_mode self)]) \/
  (exists (f : dict) (ip : value) (s : string) (a : dict),
     t = [Predict f; AddToBlocklist ip; ApplyBlock ip (mitigation_mode self);
          LogAlert s a] /\
     lookup a "type" = None).
Proof.
  cbn zeta.
  destruct (is_error pkt) eqn:Herr.
  - rewrite (handle_error P S self n pkt Herr). right. left. eexists _, _. reflexivity.
  - destruct (FeatureExtractor.extract_features P n pkt) as [f | e] eqn:Hf.
    + destruct (LoadModel.predict_proba (pipeline S) f) as [p | e] eqn:Hp.
      * pose proof (handle_scored P S self n pkt f p Herr Hf Hp) as Hh.
        unfold call, bind_io at 1 in Hh.
        destruct (fge p (threshold self));
          [| rewrite Hh; right; right; left; eexists; reflexivity].
        rewrite handle_mitigation_calls in Hh.
        destruct (add_to_blocklist S (mitigation_target f)) as [u | e];
          [| rewrite Hh; right; right; right; left; eexists _, _; reflexivity].
        destruct (apply_block S (mitigation_target f) (mitigation_mode self))
          as [cmd | e]; rewrite Hh.
        -- right. right. right. right. right. eexists _, _, _, _.
           split; reflexivity.
        -- right. right. right. right. left. eexists _, _. reflexivity.
      * assert (Hh : handle P S self n pkt = ([Predict f], Raise e)).
        { destruct pkt; try discriminate Hf.
          unfold handle. rewrite Herr, Hf. unfold pure_, bind_io at 1.
          rewrite Hp. reflexivity. }
        rewrite Hh. right. right. left. exists f. reflexivity.
    + assert (Hh : fst (handle P S self n pkt) = []).
      { destruct pkt; try reflexivity.
        unfold handle. rewrite Herr, Hf. reflexivity. }
      rewrite Hh. left. reflexivity.
Qed.

Lemma count_app (f : event -> bool) (t1 t2 : list event) :
  count f (t1 ++ t2) = (count f t1 + count f t2)%nat.
Proof. unfold count. rewrite filter_app, length_app. reflexivity. Qed.

Lemma accounted_app (mode : string) (t evs : list event) (n : nat) :
  accounted mode t n ->
  accounted mode evs 1 ->
  accounted mode (t ++ evs) (Datatypes.S n).
Proof.
  unfold accounted. intros (H1 & H2 & H3 & H4 & H5 & H6) (K1 & K2 & K3 & K4 & K5 & K6).
  rewrite !count_app. repeat split; try lia.
  intros ev Hin. apply in_app_or in Hin.
  destruct Hin as [Hin | Hin]; [exact (H6 ev Hin) | exact (K6 ev Hin)].
Qed.

Lemma handle_accounted (P : platform) (S : services) (self : engine)
      (n : nat) (pkt : value) :
  accounted (mitigation_mode self) (fst (handle P S self n pkt)) 1.
Proof.
  pose proof (handle_shape P S self n pkt) as H. cbn zeta in H.
  destruct H as [-> | [(s & m & ->) | [(f & ->) | [(f & ip & ->) |
                [(f & ip & ->) | (f & ip & s & a & -> & Ha)]]]]];
    unfold accounted, count, applies_in_mode; cbn; rewrite ?Ha; cbn;
    repeat split; try lia;
    intros ev Hin;
    repeat (destruct Hin as [<- | Hin]; [solve [exact I | reflexivity] |]);
    destruct Hin.
Qed.

Lemma act_accounted (P : platform) (S : services) (self : engine)
      (a : action) (st : state) :
  accounted (mitigation_mode self) (trace st) (received st) ->
  accounted (mitigation_mode self) (trace (act P S self a st))
            (received (act P S self a st)).
Proof.
  intros H. destruct a; unfold act, step, start, put.
  - destruct (pc st); try exact H.
    + destruct (stop_event st); exact H.
    + destruct (PyQueue.get (in_q st)) as [[pkt q'] |]; [| exact H].
      pose proof (handle_accounted P S self (received st) pkt) as Hh.
      destruct (handle P S self (received st) pkt) as [evs r].
      cbn [trace received fst] in *. apply accounted_app; assumption.
  - destruct (pc st); exact H.
  - exact H.
  - destruct (PyQueue.put (in_q st) x); exact H.
Qed.

(** The books of the engine always balance.  Whatever happens to an
    engine from its creation on, its trace never has a detection line
    without a preceding [apply_block], an [apply_block] without an
    [add_to_blocklist], or an [add_to_blocklist] without a score; it
    has at most one score and one log line per item received, and it
    never applies a block in another mode than the configured one. *)
Theorem engine_trace_accounted :
  forall (P : platform) (S : services) (self : engine)
         (q : PyQueue.t) (acts : list action),
    let st := exec P S self acts (init q) in
    accounted (mitigation_mode self) (trace st) (received st).
Proof.
  intros P S self q acts.
  assert (G : forall st : state,
             accounted (mitigation_mode self) (trace st) (received st) ->
             accounted (mitigation_mode self) (trace (exec P S self acts st))
                       (received (exec P S self acts st))).
  { induction acts as [| a acts IH]; intros st H; [exact H |].
    cbn [exec]. apply IH. apply act_accounted. exact H. }
  apply G. unfold accounted, count, applies_in_mode. cbn.
  repeat split; lia.
Qed.

(** What one action does to the number of items received plus the
    number still queued. *)
Lemma act_conserves (P : platform) (S : services) (self : engine)
      (a : action) (st : state) :
  let st' := act P S self a st in
  let puts := if is_put a then 1%nat else 0%nat in
  PyQueue.maxsize (in_q st') = PyQueue.maxsize (in_q st) /\
  (received st' + List.length (PyQueue.items (in_q st')) <=
   received st + List.length (PyQueue.items (in_q st)) + puts)%nat /\
  (received st + List.length (PyQueue.items (in_q st)) <=
   received st' + List.length (PyQueue.items (in_q st')))%nat /\
  (PyQueue.maxsize (in_q st) <= 0 ->
   (received st' + List.length (PyQueue.items (in_q st')) =
    received st + List.length (PyQueue.items (in_q st)) + puts)%nat).
Proof.
  cbn zeta. destruct a; unfold act, step, start, stop, put; cbn [is_put].
  - destruct (pc st); try (cbn; repeat split; lia).
    + destruct (stop_event st); cbn; repeat split; lia.
    + unfold PyQueue.get. destruct (PyQueue.items (in_q st)) as [| x rest] eqn:Hq.
      * cbn. rewrite ?Hq. cbn. repeat split; lia.
      * destruct (handle P S self (received st) x) as [evs r]. cbn.
        rewrite ?Hq. cbn. repeat split; lia.
  - destruct (pc st); cbn; repeat split; lia.
  - cbn. repeat split; lia.
  - unfold PyQueue.put, PyQueue.full.
    destruct (Z.ltb_spec 0 (PyQueue.maxsize (in_q st))) as [Hpos | Hnon]; cbn [andb].
    + destruct (PyQueue.maxsize (in_q st) <=? PyQueue.qsize (in_q st));
        cbn; rewrite ?length_app; cbn; repeat split; lia.
    + cbn. rewrite length_app. cbn. repeat split; lia.
Qed.

(** No item is lost or handled twice: from the creation of an engine
    on, the items received plus the items still queued never exceed
    the items initially queued plus the [put]s made, and never fall
    below the items initially queued.  On a queue without a capacity
    bound, as the entry point creates it, every [put] is accepted and
    the count is exact. *)
Theorem items_conserved :
  forall (P : platform) (S : services) (self : engine)
         (q : PyQueue.t) (acts : list action),
    let st := exec P S self acts (init q) in
    let puts := List.length (filter is_put acts) in
    let queued := List.length (PyQueue.items (in_q st)) in
    (received st + queued <= List.length (PyQueue.items q) + puts)%nat /\
    (List.length (PyQueue.items q) <= received st + queued)%nat /\
    (PyQueue.maxsize q <= 0 ->
     (received st + queued = List.length (PyQueue.items q) + puts)%nat).
Proof.
  intros P S self q acts. cbn zeta.
  assert (G : forall st : state,
             PyQueue.maxsize (in_q (exec P S self acts st)) = PyQueue.maxsize (in_q st) /\
             (received (exec P S self acts st) +
              List.length (PyQueue.items (in_q (exec P S self acts st))) <=
              received st + List.length (PyQueue.items (in_q st)) +
              List.length (filter is_put acts))%nat /\
             (received st + List.length (PyQueue.items (in_q st)) <=
              received (exec P S self acts st) +
              List.length (PyQueue.items (in_q (exec P S self acts st))))%nat /\
             (PyQueue.maxsize (in_q st) <= 0 ->
              (received (exec P S self acts st) +
               List.length (PyQueue.items (in_q (exec P S self acts st))) =
               received st + List.length (PyQueue.items (in_q st)) +
               List.length (filter is_put acts))%nat)).
  { induction acts as [| a acts IH]; intros st.
    - cbn. repeat split; lia.
    - cbn [exec filter].
      destruct (act_conserves P S self a st) as (Hm & Hle & Hge & Heq).
      destruct (IH (act P S self a st)) as (IHm & IHle & IHge & IHeq).
      rewrite Hm in IHm, IHeq.
      destruct (is_put a); cbn [List.length];
        (split; [exact IHm |]); (split; [lia |]); (split; [lia |]);
        intros Hz; specialize (Heq Hz); specialize (IHeq Hz); lia. }
  destruct (G (init q)) as (_ & Hle & Hge & Heq). cbn in Hle, Hge, Heq.
  split; [exact Hle |]. split; [exact Hge |]. exact Heq.
Qed.

Lemma items_conserved_witness :
  let st := exec Demo.utc Demo.scenario_A Demo.engine_075
                 [APut Demo.pkt_80; AStart; AStep; AStep; APut Demo.pkt_4444]
                 (init Main.pkt_q) in
  (received st + List.length (PyQueue.items (in_q st)) = 2)%nat.
Proof.
  destruct (items_conserved Demo.utc Demo.scenario_A Demo.engine_075 Main.pkt_q
              [APut Demo.pkt_80; AStart; AStep; AStep; APut Demo.pkt_4444])
    as (_ & _ & H).
  exact (H ltac:(cbn; lia)).
Defined.

(** Until [start] is called the engine does nothing: whatever is put
    on its queue and however often it is stopped, nothing is received
    and nothing is done to the outside. *)
Theorem idle_until_started :
  forall (P : platform) (S : services) (self : engine)
         (q : PyQueue.t) (acts : list action),
    existsb is_start acts = false ->
    let st := exec P S self acts (init q) in
    pc st = NotStarted /\ received st = 0%nat /\ trace st = [].
Proof.
  intros P S self q acts Hns.
  assert (G : forall st : state,
             pc st = NotStarted ->
             pc (exec P S self acts st) = NotStarted /\
             received (exec P S self acts st) = received st /\
             trace (exec P S self acts st) = trace st).
  { induction acts as [| a acts IH]; intros st Hpc; [auto |].
    cbn [existsb] in Hns. apply orb_false_iff in Hns. destruct Hns as [Ha Hns].
    cbn [exec].
    assert (Hact : pc (act P S self a st) = NotStarted /\
                   received (act P S self a st) = received st /\
                   trace (act P S self a st) = trace st).
    { destruct a; try discriminate Ha; unfold act, step, stop, put.
      - rewrite Hpc. auto.
      - auto.
      - destruct (PyQueue.put (in_q st) x); auto. }
    destruct Hact as (H1 & H2 & H3).
    destruct (IH Hns _ H1) as (K1 & K2 & K3).
    rewrite K2, K3. auto. }
  exact (G (init q) eq_refl).
Qed.

Lemma idle_until_started_witness :
  received (exec Demo.utc Demo.scenario_A Demo.engine_075
                 [APut Demo.pkt_4444; AStep; AStep; AStop; AStep]
                 (init Main.pkt_q)) = 0%nat.
Proof.
  exact (proj1 (proj2 (idle_until_started Demo.utc Demo.scenario_A Demo.engine_075
                         Main.pkt_q
                         [APut Demo.pkt_4444; AStep; AStep; AStop; AStep] eq_refl))).
Defined.

(** *** The channel under a capacity bound *)

(** A producer that pushes a batch onto a queue drops and reorders
    nothing: what is queued followed by what it still holds is what
    was queued before followed by the batch.  Under a positive
    [maxsize] the queue never grows beyond it, and the producer is
    left holding items only when the queue is full. *)
Theorem put_all_keeps_every_item :
  forall (q : PyQueue.t) (xs : list value),
    let q' := fst (PyQueue.put_all q xs) in
    let held := snd (PyQueue.put_all q xs) in
    (PyQueue.items q' ++ held = PyQueue.items q ++ xs)%list /\
    PyQueue.maxsize q' = PyQueue.maxsize q /\
    (held <> [] -> PyQueue.full q' = true) /\
    (0 < PyQueue.maxsize q ->
     PyQueue.qsize q <= PyQueue.maxsize q ->
     PyQueue.qsize q' <= PyQueue.maxsize q).
Proof.
  intros q xs. revert q. induction xs as [| x xs IH]; intros q; cbn zeta.
  - cbn. rewrite app_nil_r. repeat split; try reflexivity; try congruence; auto.
  - cbn [PyQueue.put_all]. unfold PyQueue.put.
    destruct (PyQueue.full q) eqn:Hfull.
    + cbn. repeat split; try reflexivity; auto.
    + specialize (IH {| PyQueue.maxsize := PyQueue.maxsize q;
                        PyQueue.items := PyQueue.items q ++ [x] |}).
      cbn zeta in IH. cbn [PyQueue.items PyQueue.maxsize] in IH.
      destruct IH as (Hitems & Hmax & Hheld & Hbound).
      split; [rewrite Hitems, <- app_assoc; reflexivity |].
      split; [exact Hmax |]. split; [exact Hheld |].
      intros Hpos Hle. apply Hbound; [exact Hpos |].
      unfold PyQueue.full in Hfull. unfold PyQueue.qsize in *.
      cbn [PyQueue.items]. rewrite length_app. cbn [List.length].
      destruct (Z.ltb_spec 0 (PyQueue.maxsize q)); [| lia].
      cbn [andb] in Hfull.
      destruct (Z.leb_spec (PyQueue.maxsize q) (Z.of_nat (List.length (PyQueue.items q))));
        [discriminate Hfull | lia].
Qed.

Lemma put_all_keeps_every_item_witness :
  PyQueue.put_all (PyQueue.Queue 1) [Demo.pkt_80; Demo.pkt_4444; Demo.pkt_error] =
    ({| PyQueue.maxsize := 1; PyQueue.items := [Demo.pkt_80] |},
     [Demo.pkt_4444; Demo.pkt_error]) /\
  PyQueue.qsize (fst (PyQueue.put_all (PyQueue.Queue 1)
                        [Demo.pkt_80; Demo.pkt_4444; Demo.pkt_error])) <= 1.
Proof.
  split; [reflexivity |].
  destruct (put_all_keeps_every_item (PyQueue.Queue 1)
              [Demo.pkt_80; Demo.pkt_4444; Demo.pkt_error]) as (_ & _ & _ & H).
  apply H; cbn; lia.
Defined.

(** *** The alert line *)

(** The alert written for a detection names the address acted upon:
    the line has the five keys [src_ip], [dst_ip], [probability],
    [features], [mitigation_cmd], in this order, its addresses are the
    feature record's, it is stamped with the clock's text, and the
    address handed to both mitigation helpers is the line's [src_ip]
    if truthy and its [dst_ip] otherwise. *)
Theorem alert_names_blocked_address :
  forall (P : platform) (S : services) (self : engine)
         (n : nat) (pkt : value) (features : dict) (p : spec_float) (cmd : value),
    is_error pkt = false ->
    FeatureExtractor.extract_features P n pkt = Ok features ->
    LoadModel.predict_proba (pipeline S) features = Ok p ->
    fge p (threshold self) = true ->
    add_to_blocklist S (mitigation_target features) = Ok tt ->
    apply_block S (mitigation_target features) (mitigation_mode self) = Ok cmd ->
    exists (alert : dict) (ip : value),
      handle P S self n pkt =
        ([Predict features; AddToBlocklist ip; ApplyBlock ip (mitigation_mode self);
          LogAlert (time_strftime P n) alert], Ok tt) /\
      keys alert = ["src_ip"; "dst_ip"; "probability"; "features"; "mitigation_cmd"] /\
      lookup alert "src_ip" = lookup features "src_ip" /\
      lookup alert "dst_ip" = lookup features "dst_ip" /\
      ip = or_ (get alert "src_ip" PNone) (get alert "dst_ip" PNone).
Proof.
  intros P S self n pkt features p cmd Herr Hf Hp Hge Hadd Happly.
  pose proof (handle_scored P S self n pkt features p Herr Hf Hp) as Hh.
  unfold call, bind_io at 1 in Hh.
  rewrite Hge, handle_mitigation_calls, Hadd, Happly in Hh.
  remember (handle P S self n pkt) as h eqn:Eh.
  cbn in Hh. subst h. rewrite Hh. clear Hh.
  destruct (extract_features_dict P n pkt features Hf) as [d ->].
  destruct (extract_features_inv P n d features Hf)
    as (proto & flags & tod & _ & _ & _ & ->).
  eexists _, _. split; [reflexivity |].
  repeat split; reflexivity.
Qed.

Lemma alert_names_blocked_address_witness :
  exists alert : dict,
    alerts_log (fst (handle Demo.utc Demo.scenario_A Demo.engine_075 0 Demo.pkt_4444)) =
      [alert] /\
    keys alert = ["src_ip"; "dst_ip"; "probability"; "features"; "mitigation_cmd"].
Proof.
  destruct (alert_names_blocked_address Demo.utc Demo.scenario_A Demo.engine_075 0
              Demo.pkt_4444 _ Demo.p09 (PStr "dry-run: block 192.0.2.7")
              eq_refl eq_refl eq_refl eq_refl eq_refl eq_refl)
    as (alert & ip & Hh & Hk & _).
  exists alert. rewrite Hh. split; [reflexivity | exact Hk].
Defined.
